(** * The callback stage of the graph data loaders

    The notebooks of this repository exercise [conn.gds.vertexLoader],
    [edgeLoader] and [graphLoader] with the [callback_fn] argument.  The
    loader code they drive is visible in the notebooks through the recorded
    traceback of the "uncallble_string" test case:

    - [BaseLoader.__iter__]    (dataloaders.py, lines 1202-1206)
    - [BaseLoader.data]        (dataloaders.py, lines 1232-1236)
    - [VertexLoader.data]      (dataloaders.py, lines 2262-2267)
    - [BaseLoader._read_data]  (dataloaders.py, line 587, the reader thread)
    - [BaseLoader._parse_data] (dataloaders.py, line 965)

    together with the two [process_batch] callbacks the notebooks define.
    Those fragments are embedded below as they read; what the notebooks do not
    show (the database side, the table assembler, the constructor and its
    checks, [_reset], [_start], [__next__]) is modelled from the
    specification and marked as such. *)

From Stdlib Require Import List String ZArith Bool Arith Lia Permutation.
Import ListNotations.
Open Scope string_scope.
Open Scope list_scope.

Set Implicit Arguments.
Set Warnings "-register-all".

(** ** Python values *)

Module Py.

(** Exceptions the notebooks meet, and the two kinds of error the
    specification names for the constructor. *)
Inductive Exn : Type :=
| TypeError (msg : string)
| KeyError (key : string)
| ConfigError (what : string)
| DataError (what : string)
| StopIteration.

Inductive result (A : Type) : Type :=
| Ok (a : A)
| Raise (e : Exn).
Arguments Ok {A} a.
Arguments Raise {A} e.

(** One cell of a data frame. *)
Inductive Cell : Type :=
| CInt (z : Z)
| CStr (s : string)
| CBool (b : bool)
| CNull.

(** A data frame: its columns in order, each a name and its cells. *)
Definition Table : Type := list (string * list Cell).

(** What a batch, or whatever a callback makes of it, can be: [Any]. *)
Inductive Value : Type :=
| VNone
| VInt (z : Z)
| VStr (s : string)
| VFrame (t : Table)
| VDict (d : list (string * Value)).

(** What a caller can pass as [callback_fn]. *)
Inductive Obj : Type :=
| ONone
| OInt (z : Z)
| OStr (s : string)
| OFun (f : Value -> result Value).

(** [bool(o)]: the truth value Python gives an object. *)
Definition truthy (o : Obj) : bool :=
  match o with
  | ONone => false
  | OInt z => negb (z =? 0)%Z
  | OStr s => negb (s =? "")
  | OFun _ => true
  end.

(** [callable(o)]. *)
Definition callable (o : Obj) : bool :=
  match o with
  | OFun _ => true
  | _ => false
  end.

(** [o(x)]: calling an object that is no function raises [TypeError], with
    the message of the recorded traceback. *)
Definition call (o : Obj) (x : Value) : result Value :=
  match o with
  | OFun f => f x
  | OStr _ => Raise (TypeError "'str' object is not callable")
  | OInt _ => Raise (TypeError "'int' object is not callable")
  | ONone => Raise (TypeError "'NoneType' object is not callable")
  end.

(** [d[k]] on a dict kept in insertion order. *)
Fixpoint lookup {A : Type} (k : string) (d : list (string * A)) : option A :=
  match d with
  | [] => None
  | (k', v) :: d' => if k' =? k then Some v else lookup k d'
  end.

Definition keys {A : Type} (d : list (string * A)) : list string := map fst d.

End Py.
Import Py.

(** ** The callbacks of the notebooks *)

(** [def process_batch(batch): return batch] *)
Definition process_batch (batch : Value) : result Value := Ok batch.

(** [def process_batch(batch): return {"v0": batch["v0"]}]
    (test2_callback_fn_vertexloader.ipynb, loader4).  Subscripting a dict
    without the key raises [KeyError], and so does a frame without such a
    column. *)
Definition process_batch_v0 (batch : Value) : result Value :=
  match batch with
  | VDict d =>
      match lookup "v0" d with
      | Some t => Ok (VDict [("v0", t)])
      | None => Raise (KeyError "v0")
      end
  | VFrame t =>
      match lookup "v0" t with
      | Some c => Ok (VDict [("v0", VFrame [("v0", c)])])
      | None => Raise (KeyError "v0")
      end
  | _ => Raise (TypeError "object is not subscriptable")
  end.

(** ** Raw batches and the batch assembler *)

(** The attribute selection of a loader: one list for every element type, or
    a mapping from type name to attribute list. *)
Inductive Selection : Type :=
| Flat (attributes : list string)
| ByType (attributes : list (string * list string)).

(** One line of the wire payload: the element's type, then its identifier and
    the values of the selected attributes. *)
Definition RawRow : Type := (string * list Cell)%type.
Definition RawBatch : Type := list RawRow.

(** Column [i] of the rows. *)
Definition column (rows : list (list Cell)) (i : nat) : list Cell :=
  map (fun r => nth i r CNull) rows.

(** A frame with the given column names over the rows. *)
Definition frame (names : list string) (rows : list (list Cell)) : Table :=
  map (fun ni => (fst ni, column rows (snd ni)))
      (combine names (seq 0 (List.length names))).

Definition attrs_of (m : list (string * list string)) (t : string) : list string :=
  match lookup t m with
  | Some a => a
  | None => []
  end.

(** The element types of a raw batch, each once, in the order they first
    appear (the edge-loader notebook prints ["v2v0"] before ["v0v0"] in the one
    batch where a [v2v0] line comes first). *)
Fixpoint types_of (raw : RawBatch) : list string :=
  match raw with
  | [] => []
  | (t, _) :: raw' =>
      t :: filter (fun t' => negb (t' =? t)) (types_of raw')
  end.

Definition rows_of_type (t : string) (raw : RawBatch) : list (list Cell) :=
  map snd (filter (fun r => fst r =? t) raw).

(** Modelled from the spec: the Batch Assembler of a vertex loader with the
    table output format, whose code ([_parse_data] above its last line) the
    notebooks do not show.  Section 4.3: selected attributes pass through; in
    heterogeneous mode the result groups columns by element type.  Section 3:
    a vertex batch has the row identifier column [vid]. *)
Definition assemble (sel : Selection) (raw : RawBatch) : Value :=
  match sel with
  | Flat attributes => VFrame (frame ("vid" :: attributes) (map snd raw))
  | ByType m =>
      VDict (map (fun t => (t, VFrame (frame ("vid" :: attrs_of m t)
                                             (rows_of_type t raw))))
                 (types_of raw))
  end.

(** ** The callback stage *)

(** What the loader does that a test can observe. *)
Inductive Event : Type :=
| ThreadStarted            (* [_start] spawned the reader thread *)
| ThreadsStopped           (* [_reset] tore the threads and queues down *)
| Called (arg : Value)     (* [callback_fn(data)] was evaluated *)
| Put (v : option Value)   (* the reader put a batch, or the end marker *)
| Got (v : option Value)   (* the consumer took an item off [_data_q] *)
| ThreadDied (e : Exn).    (* "Exception in thread Thread-7" *)

(** [BaseLoader._parse_data] (dataloaders.py line 965): after assembling
    [data] its last statement is [return callback_fn(data)].  The notebook's
    testcase1 ([callback_fn = 0], "return original data") shows the statement
    is guarded by the truth value of [callback_fn]:

      if callback_fn: return callback_fn(data)
      else:           return data

    The function returns the events it causes and its result. *)
Definition _parse_data (sel : Selection) (callback_fn : Obj) (raw : RawBatch)
  : list Event * result Value :=
  let data := assemble sel raw in
  if truthy callback_fn
  then ([Called data], call callback_fn data)
  else ([], Ok data).

(** ** The loader object *)

Inductive ThreadStatus : Type :=
| Alive
| Finished
| Died (e : Exn).

(** The reader thread that runs [_read_data]: the raw batches the transport
    still has for it, and how the thread is doing. *)
Record Thread : Type := mkThread {
  todo : list RawBatch;
  status : ThreadStatus
}.

(** [_data_q] holds batches; [None] is the end-of-stream marker. *)
Definition Queue : Type := list (option Value).

Record Loader : Type := mkLoader {
  num_batches : nat;
  batch_size : nat;
  buffer_size : nat;                   (* capacity of [_data_q]; 0 is unbounded *)
  selection : Selection;
  callback_fn : Obj;
  transport : nat -> list RawBatch;    (* what the n-th production pass is fed *)
  _data : option Value;
  _data_q : Queue;
  _threads : list Thread;
  _iterator : bool;
  events : list Event                  (* oldest first *)
}.

Definition with_data (d : option Value) (l : Loader) : Loader :=
  mkLoader (num_batches l) (batch_size l) (buffer_size l) (selection l)
           (callback_fn l)
           (transport l) d (_data_q l) (_threads l) (_iterator l) (events l).

Definition with_iterator (b : bool) (l : Loader) : Loader :=
  mkLoader (num_batches l) (batch_size l) (buffer_size l) (selection l)
           (callback_fn l)
           (transport l) (_data l) (_data_q l) (_threads l) b (events l).

Definition with_run (q : Queue) (ths : list Thread) (evs : list Event)
  (l : Loader) : Loader :=
  mkLoader (num_batches l) (batch_size l) (buffer_size l) (selection l)
           (callback_fn l)
           (transport l) (_data l) q ths (_iterator l) (events l ++ evs).

(** How many production passes have been started so far. *)
Fixpoint started (evs : list Event) : nat :=
  match evs with
  | [] => 0
  | ThreadStarted :: evs' => S (started evs')
  | _ :: evs' => started evs'
  end.

(** The arguments the callback has been called with, oldest first. *)
Fixpoint calls (evs : list Event) : list Value :=
  match evs with
  | [] => []
  | Called v :: evs' => v :: calls evs'
  | _ :: evs' => calls evs'
  end.

(** The threads that are still running. *)
Definition alive (ths : list Thread) : list Thread :=
  filter (fun th => match status th with Alive => true | _ => false end) ths.

(** *** The reader thread *)

(** The loop of [BaseLoader._read_data] (dataloaders.py line 587,
    [data = BaseLoader._parse_data(...)], then the put on [_data_q]), run
    until the queue has no room left, the transport is exhausted (the thread
    puts the end marker and returns) or [_parse_data] raises (the exception
    ends the thread, as printed under "Exception in thread Thread-7").  The
    thread is scheduled when its next put can proceed. *)
Fixpoint run_thread (sel : Selection) (cb : Obj) (room : nat)
  (t : list RawBatch) : Thread * Queue * list Event :=
  match room with
  | 0 => (mkThread t Alive, [], [])
  | S room' =>
      match t with
      | [] => (mkThread [] Finished, [None], [Put None])
      | raw :: rest =>
          match _parse_data sel cb raw with
          | (evs, Ok v) =>
              let '(th, items, evs') := run_thread sel cb room' rest in
              (th, Some v :: items, evs ++ Put (Some v) :: evs')
          | (evs, Raise e) =>
              (mkThread rest (Died e), [], evs ++ [ThreadDied e])
          end
      end
  end.

(** Free slots of a [queue.Queue(buffer_size)]; size 0 means no bound. *)
Definition room_for (size : nat) (q : Queue) (th : Thread) : nat :=
  if Nat.eqb size 0 then S (List.length (todo th)) else size - List.length q.

Definition _read_data (sel : Selection) (cb : Obj) (size : nat) (q : Queue)
  (th : Thread) : Thread * Queue * list Event :=
  match status th with
  | Alive => run_thread sel cb (room_for size q th) (todo th)
  | _ => (th, [], [])
  end.

(** Every thread of the loader gets to run, in the order they were started. *)
Fixpoint schedule (sel : Selection) (cb : Obj) (size : nat) (q : Queue)
  (ths : list Thread) : list Thread * Queue * list Event :=
  match ths with
  | [] => ([], q, [])
  | th :: ths' =>
      let '(th', items, evs) := _read_data sel cb size q th in
      let '(ths'', q', evs') := schedule sel cb size (q ++ items) ths' in
      (th' :: ths'', q', evs ++ evs')
  end.

(** *** The consumer side *)

(** What a call on the consumer's side comes to.  [Blocked]: the call never
    returns, the consumer waits on an empty queue nobody will fill (the
    notebook run ends it with KeyboardInterrupt in [Queue.get]). *)
Inductive outcome (A : Type) : Type :=
| Returned (a : A)
| Raised (e : Exn)
| Blocked
| OutOfFuel.
Arguments Returned {A} a.
Arguments Raised {A} e.
Arguments Blocked {A}.
Arguments OutOfFuel {A}.

(** [self._data_q.get()]: blocking get.  The threads run first; an empty queue
    after that stays empty. *)
Definition _data_q_get (l : Loader) : outcome (option Value) * Loader :=
  let '(ths, q, evs) :=
    schedule (selection l) (callback_fn l) (buffer_size l) (_data_q l)
             (_threads l) in
  match q with
  | item :: q' => (Returned item, with_run q' ths (evs ++ [Got item]) l)
  | [] => (Blocked, with_run [] ths evs l)
  end.

(** Modelled from the spec: [_reset], of which the notebooks show only the
    calls.  Section 4.5: [reset()] discards any buffered batches and any
    in-flight producer state, returning to Idle. *)
Definition _reset (l : Loader) : Loader :=
  with_iterator false (with_run [] [] [ThreadsStopped] l).

(** Modelled from the spec: [_start], of which the notebooks show only the
    calls.  Section 4.5: a dedicated background producer is started; it
    drives the transport across all planned partitions and pipes each raw
    batch through the assembler and the callback stage onto the queue; a
    start re-plans and re-produces from scratch. *)
Definition _start (l : Loader) : Loader :=
  with_run (_data_q l)
           (_threads l ++ [mkThread (transport l (started (events l))) Alive])
           [ThreadStarted] l.

(** What [loader.data] evaluates to: a batch, or the loader itself. *)
Inductive DataRef : Type :=
| TheBatch (v : Value)
| Self.

(** [BaseLoader.data] (dataloaders.py lines 1232-1236), reached through
    [VertexLoader.data] ([return super().data], line 2267):

      if self.num_batches == 1:
          if self._data is None:
              self._reset()
              self._start()
              self._data = self._data_q.get()
          return self._data
      else:
          return self

    The recorded frame shows the three statements of the inner block, the
    [return self._data] after it and the [else:]; the docstring of
    [VertexLoader.data] gives the rest ("stores all data if all data is loaded
    in a single batch ... If there are multiple batches of data, the data
    property returns the instance itself"). *)
Definition data (l : Loader) : outcome DataRef * Loader :=
  if Nat.eqb (num_batches l) 1 then
    match _data l with
    | None =>
        match _data_q_get (_start (_reset l)) with
        | (Returned (Some v), l') => (Returned (TheBatch v), with_data (Some v) l')
        | (Returned None, l') => (Returned (TheBatch VNone), l')
        | (Raised e, l') => (Raised e, l')
        | (Blocked, l') => (Blocked, l')
        | (OutOfFuel, l') => (OutOfFuel, l')
        end
    | Some v => (Returned (TheBatch v), l)
    end
  else (Returned Self, l).

(** What [iter(loader)] evaluates to: a list iterator, or the loader. *)
Inductive Iter : Type :=
| ListIter (items : list Value)
| SelfIter.

(** [BaseLoader.__iter__] (dataloaders.py lines 1202-1206):

      def __iter__(self) -> Iterator:
          if self.num_batches == 1:
              return iter([self.data])
          self._reset()
          self._start()

    and then, modelled from the spec (the frame ends there), the loader
    becomes its own iterator. *)
Definition __iter__ (l : Loader) : outcome Iter * Loader :=
  if Nat.eqb (num_batches l) 1 then
    match data l with
    | (Returned (TheBatch v), l') => (Returned (ListIter [v]), l')
    | (Returned Self, l') => (Returned SelfIter, l')
    | (Raised e, l') => (Raised e, l')
    | (Blocked, l') => (Blocked, l')
    | (OutOfFuel, l') => (OutOfFuel, l')
    end
  else (Returned SelfIter, with_iterator true (_start (_reset l))).

(** Modelled from the spec: [__next__], which the notebooks do not show.
    Section 4.5: the iteration protocol pops one batch per call; reaching the
    end-of-stream marker ends iteration (no further batches, no error). *)
Definition __next__ (l : Loader) : outcome Value * Loader :=
  if _iterator l then
    match _data_q_get l with
    | (Returned (Some v), l') => (Returned v, l')
    | (Returned None, l') => (Raised StopIteration, with_iterator false l')
    | (Raised e, l') => (Raised e, l')
    | (Blocked, l') => (Blocked, l')
    | (OutOfFuel, l') => (OutOfFuel, l')
    end
  else (Raised (TypeError "Not an iterator"), l).

(** The body of a [for] loop over the loader as its own iterator: [__next__]
    until [StopIteration], collecting the batches. *)
Fixpoint drain (fuel : nat) (l : Loader) : outcome (list Value) * Loader :=
  match fuel with
  | 0 => (OutOfFuel, l)
  | S fuel' =>
      match __next__ l with
      | (Returned v, l') =>
          match drain fuel' l' with
          | (Returned vs, l'') => (Returned (v :: vs), l'')
          | other => other
          end
      | (Raised StopIteration, l') => (Returned [], l')
      | (Raised e, l') => (Raised e, l')
      | (Blocked, l') => (Blocked, l')
      | (OutOfFuel, l') => (OutOfFuel, l')
      end
  end.

(** [for i, batch in enumerate(loader): ...] of the notebooks: the batches the
    loop body sees, in order. *)
Definition for_loop (fuel : nat) (l : Loader) : outcome (list Value) * Loader :=
  match __iter__ l with
  | (Returned (ListIter vs), l') => (Returned vs, l')
  | (Returned SelfIter, l') => drain fuel l'
  | (Raised e, l') => (Raised e, l')
  | (Blocked, l') => (Blocked, l')
  | (OutOfFuel, l') => (OutOfFuel, l')
  end.

(** ** The database side *)

(** A vertex of the graph: its internal identifier, its type and its
    attribute values. *)
Record Vertex : Type := mkVertex {
  vid : Z;
  vtype : string;
  attrs : list (string * Cell)
}.

(** What [conn] stands for in the notebooks.  [broker] is set by
    [conn.gds.configureKafka]: without it batches come as one HTTP response in
    plan order, with it they are read off the topic in the order they arrive,
    given per production pass as a reordering of the plan. *)
Record Connection : Type := mkConnection {
  graph : list Vertex;
  placement : Vertex -> nat;           (* the server's fixed placement rule *)
  draw : nat -> Vertex -> nat;         (* the server's random draw on pass n *)
  broker : option (nat -> list nat -> list nat)
}.

(** The keyword arguments of [conn.gds.vertexLoader] as the notebooks document
    them ("Args:" of the Vertex Loader cell): [None] where the caller leaves
    one out. *)
Record Kwargs : Type := mkKwargs {
  kw_attributes : Selection;
  kw_batch_size : option nat;
  kw_num_batches : option nat;
  kw_shuffle : bool;
  kw_filter_by : option string;
  kw_buffer_size : option nat;
  kw_callback_fn : Obj
}.

Definition cell (a : string) (v : Vertex) : Cell :=
  match lookup a (attrs v) with
  | Some c => c
  | None => CNull
  end.

(** Whether the selection takes vertices of this type: every type for a plain
    list, the keys of the mapping otherwise. *)
Definition type_selected (sel : Selection) (v : Vertex) : bool :=
  match sel with
  | Flat _ => true
  | ByType m => existsb (fun t => t =? vtype v) (keys m)
  end.

(** [filter_by]: a boolean attribute that says which vertices are included. *)
Definition passes (filter_by : option string) (v : Vertex) : bool :=
  match filter_by with
  | None => true
  | Some a =>
      match lookup a (attrs v) with
      | Some (CBool true) => true
      | _ => false
      end
  end.

(** The filtered element set of a configuration. *)
Definition filtered (sel : Selection) (filter_by : option string)
  (g : list Vertex) : list Vertex :=
  filter (fun v => type_selected sel v && passes filter_by v) g.

(** The line the server prints for a vertex: its type, its identifier and the
    values of the attributes the selection asks for on that type. *)
Definition raw_row (sel : Selection) (v : Vertex) : RawRow :=
  (vtype v,
   CInt (vid v) ::
   map (fun a => cell a v)
       (match sel with
        | Flat a => a
        | ByType m => attrs_of m (vtype v)
        end)).

(** Modelled from the spec: the Partition Planner, which runs in the database
    and is not part of the notebooks.  Sections 3 and 4.1: every element of
    the filtered set is assigned one partition identifier out of
    [num_batches]; without shuffling the assignment is the server's fixed rule,
    with shuffling it is drawn anew on every pass. *)
Definition partition_of (conn : Connection) (shuffle : bool) (pass n : nat)
  (v : Vertex) : nat :=
  (if shuffle then draw conn pass v else placement conn v) mod n.

Definition partition (conn : Connection) (sel : Selection)
  (filter_by : option string) (shuffle : bool) (pass n p : nat) : list Vertex :=
  filter (fun v => Nat.eqb (partition_of conn shuffle pass n v) p)
         (filtered sel filter_by (graph conn)).

(** Modelled from the spec: the Transport (section 4.2).  The bulk variant
    yields the partitions in plan order, the streamed variant in the order
    the messages arrive. *)
Definition delivery (conn : Connection) (pass n : nat) : list nat :=
  match broker conn with
  | None => seq 0 n
  | Some arrival => arrival pass (seq 0 n)
  end.

Definition serve (conn : Connection) (sel : Selection)
  (filter_by : option string) (shuffle : bool) (n pass : nat) : list RawBatch :=
  map (fun p => map (raw_row sel) (partition conn sel filter_by shuffle pass n p))
      (delivery conn pass n).

(** ** Construction *)

(** [ceil(total / batch_size)] *)
Definition ceil_div (total size : nat) : nat := (total + size - 1) / size.

(** Whether [filter_by] names a boolean attribute of every selected vertex. *)
Definition filter_is_boolean (sel : Selection) (filter_by : option string)
  (g : list Vertex) : bool :=
  match filter_by with
  | None => true
  | Some a =>
      forallb (fun v => match lookup a (attrs v) with
                        | Some (CBool _) => true
                        | _ => false
                        end)
              (filter (type_selected sel) g)
  end.

(** The attributes the selection asks for on a vertex. *)
Definition requested (sel : Selection) (v : Vertex) : list string :=
  match sel with
  | Flat a => a
  | ByType m => attrs_of m (vtype v)
  end.

Definition has_attributes (a : list string) (v : Vertex) : bool :=
  forallb (fun x => match lookup x (attrs v) with
                    | Some _ => true
                    | None => false
                    end) a.

(** Whether every selected vertex has the attributes asked of it.  The
    notebooks' "Args:" on [attributes]: "If it is a list, then the attributes
    in the list from all vertex types will be selected. An error will be
    thrown if certain attribute doesn't exist in all vertex types."  A vertex
    type has the attributes its vertices carry. *)
Definition attributes_exist (sel : Selection) (g : list Vertex) : bool :=
  forallb (fun v => has_attributes (requested sel v) v)
          (filter (type_selected sel) g).

(** Modelled from the spec: the sizing rule of the constructor, which the
    notebooks do not show.  Section 4.1: "Exactly one of
    [batch_size]/[num_batches] must be supplied; the other is computed as
    [ceil(total/batch_size)] or [ceil(total/num_batches)] respectively.
    ... Fails with [ConfigError] if both or neither sizing parameter is
    given".  The result is the number of batches and the batch size.  Every
    call the notebooks record supplies exactly one of the two. *)
Definition resolve_sizing (total : nat) (batch_size num_batches : option nat)
  : result (nat * nat) :=
  match batch_size, num_batches with
  | Some b, None => Ok (ceil_div total b, b)
  | None, Some n => Ok (n, ceil_div total n)
  | Some _, Some _ =>
      Raise (ConfigError "both batch_size and num_batches are given")
  | None, None =>
      Raise (ConfigError "neither batch_size nor num_batches is given")
  end.

Definition default {A : Type} (d : A) (o : option A) : A :=
  match o with
  | Some a => a
  | None => d
  end.

(** Modelled from the spec: [conn.gds.vertexLoader(...)], whose code the
    notebooks do not show.  Section 4.1: the constructor fails with
    [ConfigError] if both or neither sizing parameter is given, or if
    [filter_by] references a non-boolean attribute.  The notebooks' "Args:"
    say an error is thrown for an attribute that does not exist; section 7
    lists an unknown attribute under [DataError].  Section 6 gives the default
    of [buffer_size].  The recorded run of the "uncallble_string" cell gets
    past the constructor and fails inside the [for] loop, so the constructor
    does not look at [callback_fn]. *)
Definition vertexLoader (conn : Connection) (kw : Kwargs) : result Loader :=
  let sel := kw_attributes kw in
  let total := List.length (filtered sel (kw_filter_by kw) (graph conn)) in
  match resolve_sizing total (kw_batch_size kw) (kw_num_batches kw) with
  | Raise e => Raise e
  | Ok (n, b) =>
      if negb (filter_is_boolean sel (kw_filter_by kw) (graph conn)) then
        Raise (ConfigError "filter_by is not a boolean attribute")
      else if negb (attributes_exist sel (graph conn)) then
        Raise (DataError "unknown attribute")
      else
        Ok (mkLoader n b (default 4 (kw_buffer_size kw)) sel (kw_callback_fn kw)
                     (serve conn sel (kw_filter_by kw) (kw_shuffle kw) n)
                     None [] [] false [])
  end.

(** ** What a pass delivers *)

(** The items a reader thread puts on the queue when it runs its raw batches
    to the end: the parsed batches and the end marker, or the batches up to
    the one [_parse_data] raises on. *)
Fixpoint stream (sel : Selection) (cb : Obj) (t : list RawBatch) : Queue :=
  match t with
  | [] => [None]
  | raw :: rest =>
      match snd (_parse_data sel cb raw) with
      | Ok v => Some v :: stream sel cb rest
      | Raise _ => []
      end
  end.

(** The callback's arguments over such a run. *)
Fixpoint callargs (sel : Selection) (cb : Obj) (t : list RawBatch) : list Value :=
  match t with
  | [] => []
  | raw :: rest =>
      calls (fst (_parse_data sel cb raw)) ++
      match snd (_parse_data sel cb raw) with
      | Ok _ => callargs sel cb rest
      | Raise _ => []
      end
  end.

(** [_parse_data] over every raw batch, if none raises. *)
Fixpoint parse_all (sel : Selection) (cb : Obj) (t : list RawBatch)
  : result (list Value) :=
  match t with
  | [] => Ok []
  | raw :: rest =>
      match snd (_parse_data sel cb raw) with
      | Ok v =>
          match parse_all sel cb rest with
          | Ok vs => Ok (v :: vs)
          | Raise e => Raise e
          end
      | Raise e => Raise e
      end
  end.

Definition future (sel : Selection) (cb : Obj) (th : Thread) : Queue :=
  match status th with
  | Alive => stream sel cb (todo th)
  | _ => []
  end.

Definition future_calls (sel : Selection) (cb : Obj) (th : Thread) : list Value :=
  match status th with
  | Alive => callargs sel cb (todo th)
  | _ => []
  end.

(** ** Grouping *)

(** The elements of a list that carry the key [k]. *)
Definition pick {A K : Type} (key : A -> K) (eqb : K -> K -> bool)
  (l : list A) (k : K) : list A :=
  filter (fun y => eqb (key y) k) l.

(** ** Reading batches *)

(** The first cell of a raw line is the identifier. *)
Definition row_vid (r : RawRow) : Cell := nth 0 (snd r) CNull.


(** The [vid] column of a frame. *)
Definition table_vids (v : Value) : list Cell :=
  match v with
  | VFrame t =>
      match lookup "vid" t with
      | Some c => c
      | None => []
      end
  | _ => []
  end.

(** The identifiers of the rows of a batch: of the frame, or of every frame
    of a batch keyed by type. *)
Definition batch_vids (v : Value) : list Cell :=
  match v with
  | VFrame _ => table_vids v
  | VDict d => flat_map (fun kv => table_vids (snd kv)) d
  | _ => []
  end.

(** [batch.shape[0]] summed over the frames of the batch. *)
Definition batch_rows (v : Value) : nat := List.length (batch_vids v).

(** The column names of a frame. *)
Definition columns (v : Value) : option (list string) :=
  match v with
  | VFrame t => Some (keys t)
  | _ => None
  end.

(** Whether every column of a frame has [n] cells. *)
Definition rectangular (n : nat) (v : Value) : bool :=
  match v with
  | VFrame t => forallb (fun c => Nat.eqb (List.length (snd c)) n) t
  | _ => false
  end.

Definition total (l : list nat) : nat := fold_right Nat.add 0 l.

(** The number of rows of a frame, [len(df)]. *)
Definition height (t : Table) : nat :=
  match t with
  | [] => 0
  | (_, c) :: _ => List.length c
  end.

(** The rows of a frame from top to bottom, each the cells under the columns
    in order ([df.values]). *)
Definition records (v : Value) : list (list Cell) :=
  match v with
  | VFrame t =>
      map (fun i => map (fun c => nth i (snd c) CNull) t) (seq 0 (height t))
  | _ => []
  end.

(** The row [r] is the vertex [v] read under the attributes [a]: its
    identifier, then the value the vertex has for each attribute. *)
Definition row_holds (a : list string) (v : Vertex) (r : list Cell) : Prop :=
  exists cs,
    r = CInt (vid v) :: cs /\
    Forall2 (fun x c => lookup x (attrs v) = Some c) a cs.

(** The table has the columns [vid] and [a], and its rows are the vertices
    [vs], one row each, in order. *)
Definition table_holds (a : list string) (vs : list Vertex) (tbl : Value)
  : Prop :=
  columns tbl = Some ("vid" :: a) /\ Forall2 (row_holds a) vs (records tbl).

(** The batch holds exactly the vertices [part] under the selection: as one
    table for a plain list; for a mapping as one table for every type that
    has a vertex in [part], with the columns the mapping gives the type and
    the vertices of that type as its rows. *)
Definition carries (sel : Selection) (part : list Vertex) (b : Value) : Prop :=
  match sel with
  | Flat a => table_holds a part b
  | ByType m =>
      exists d,
        b = VDict d /\
        NoDup (keys d) /\
        (forall t, In t (keys d) <-> In t (map vtype part)) /\
        (forall t tbl, In (t, tbl) d ->
           exists a, lookup t m = Some a /\
                     table_holds a (filter (fun v => vtype v =? t) part) tbl)
  end.

(** The end of [_parse_data] on an assembled batch: the callback if there is
    one, the batch itself otherwise (section 4.4, [apply(Batch, callback)]). *)
Definition callback_stage (cb : Obj) (b : Value) : result Value :=
  if truthy cb then call cb b else Ok b.

(** The batches a production pass assembles, before the callback. *)
Definition assembled (l : Loader) (pass : nat) : list Value :=
  map (assemble (selection l)) (transport l pass).

(** The streamed transport delivers every message once: the arrival order of
    a pass is a reordering of the plan. *)
Definition valid_broker (conn : Connection) : Prop :=
  forall arrival, broker conn = Some arrival ->
    forall pass ids, Permutation ids (arrival pass ids).

(** A callback that hands the batch on as it is: none, or the notebooks'
    [process_batch]. *)
Definition passes_through (cb : Obj) : Prop :=
  truthy cb = false \/ cb = OFun process_batch.

(** ** The notebooks' graphs and calls *)

(** A graph of 2708 vertices of one type with the attributes the vertex
    notebook reads, as Cora has (the one batch of testcase1 has shape
    (2708, 4)). *)
Definition cora : list Vertex :=
  map (fun i =>
         mkVertex (100663296 + Z.of_nat i) "Paper"
                  [("id", CInt (Z.of_nat i)); ("x", CStr "0 0 0 1 0");
                   ("y", CInt (Z.of_nat (i mod 7)))])
      (seq 0 2708).

(** A graph with the vertex types [v0], [v1] and [v2] of the notebooks'
    heterogeneous graph. *)
Definition hetero : list Vertex :=
  map (fun i =>
         mkVertex (134217728 + Z.of_nat i) "v0"
                  [("x", CStr "-1.39 -0.81"); ("y", CInt (Z.of_nat (i mod 10)))])
      (seq 0 90) ++
  map (fun i =>
         mkVertex (167772160 + Z.of_nat i) "v1" [("x", CStr "1.28 -1.02")])
      (seq 0 100) ++
  map (fun i =>
         mkVertex (201326592 + Z.of_nat i) "v2" [("x", CStr "0.36 0.22")])
      (seq 0 40).

Definition by_vid (v : Vertex) : nat := Z.to_nat (vid v mod 1009).

Definition scrambled (pass : nat) (v : Vertex) : nat :=
  Z.to_nat ((vid v * 7919 + Z.of_nat pass * 104729 + 17) mod 1009).

(** A connection that fetches over HTTP, and one after
    [conn.gds.configureKafka(...)] whose messages arrive last first. *)
Definition over_http (g : list Vertex) : Connection :=
  mkConnection g by_vid scrambled None.

Definition over_kafka (g : list Vertex) : Connection :=
  mkConnection g by_vid scrambled (Some (fun _ ids => rev ids)).

(** part_000, testcase1: [vertexLoader(num_batches=1,
    attributes=["id","x","y"], callback_fn=0)]. *)
Definition testcase1 : Kwargs :=
  mkKwargs (Flat ["id"; "x"; "y"]) None (Some 1) false None None (OInt 0).

(** part_000, testcase2: the same with [callback_fn="uncallble_string"]. *)
Definition testcase2 : Kwargs :=
  mkKwargs (Flat ["id"; "x"; "y"]) None (Some 1) false None None
           (OStr "uncallble_string").

(** Vertex notebook, [vertex_loader1]. *)
Definition vertex_loader1 : Kwargs :=
  mkKwargs (Flat ["id"; "x"; "y"]) None (Some 10) false None None
           (OFun process_batch).

(** Vertex notebook, [loader3] and [loader4]. *)
Definition loader3 : Kwargs :=
  mkKwargs (ByType [("v0", ["x"; "y"]); ("v1", ["x"])]) (Some 20) None true
           None (Some 4) ONone.

Definition loader4 : Kwargs :=
  mkKwargs (ByType [("v0", ["x"; "y"]); ("v1", ["x"])]) (Some 20) None true
           None (Some 4) (OFun process_batch_v0).

(** Vertex notebook, [vertex_loader5], run after [configureKafka]. *)
Definition vertex_loader5 : Kwargs :=
  mkKwargs (Flat ["id"; "x"; "y"]) None (Some 20) true None None
           (OFun process_batch).

(** The row counts the notebook printed for the twenty batches of
    [vertex_loader5]. *)
Definition vertex_loader5_shapes : list nat :=
  [128; 146; 147; 123; 124; 143; 137; 123; 132; 136;
   148; 129; 142; 136; 146; 123; 144; 139; 119; 143].

(** The example scenario of the specification: 2708 vertices, ten batches,
    shuffled, attributes [id], [x], [y]. *)
Definition scenario : Kwargs :=
  mkKwargs (Flat ["id"; "x"; "y"]) None (Some 10) true None None ONone.

Definition with_callback_fn (cb : Obj) (kw : Kwargs) : Kwargs :=
  mkKwargs (kw_attributes kw) (kw_batch_size kw) (kw_num_batches kw)
           (kw_shuffle kw) (kw_filter_by kw) (kw_buffer_size kw) cb.

(** The loader a call of the constructor makes (an idle loader of no batches
    where the constructor raises). *)
Definition loader_of (conn : Connection) (kw : Kwargs) : Loader :=
  match vertexLoader conn kw with
  | Ok l => l
  | Raise _ => mkLoader 0 0 0 (Flat []) ONone (fun _ => []) None [] [] false []
  end.

(** What a callback makes of every assembled batch of the first pass ([VNone]
    where it raises). *)
Definition outputs (f : Value -> result Value) (l : Loader) : list Value :=
  map (fun raw => match f (assemble (selection l) raw) with
                  | Ok v => v
                  | Raise _ => VNone
                  end)
      (transport l 0).

(** A batch keyed by type that follows the mapping [m]: every table in it is
    of a type of the mapping and has the identifier column and that type's
    attributes as its columns, and no other type has a table. *)
Definition typed_as (m : list (string * list string)) (b : Value) : Prop :=
  exists d,
    b = VDict d /\
    (forall t tbl, In (t, tbl) d ->
       exists a, lookup t m = Some a /\ columns tbl = Some ("vid" :: a)) /\
    (forall t, lookup t m = None -> lookup t d = None).

(** Nothing ran in the background: no reader thread was started and nothing
    was taken off the queue. *)
Definition no_background_work (l : Loader) : Prop :=
  started (events l) = 0 /\ forall item, ~ In (Got item) (events l).

(** ** A pass in progress *)

(** The loader has one reader thread; [pend] is what the consumer has still to
    be handed, [cs] what the callback will have been called with by the end
    of the pass.  The end marker is on the queue only when the thread is
    through. *)
Definition Runs (l : Loader) (pend : Queue) (cs : list Value) : Prop :=
  exists th,
    _threads l = [th] /\
    _data_q l ++ future (selection l) (callback_fn l) th = pend /\
    calls (events l) ++ future_calls (selection l) (callback_fn l) th = cs /\
    (In None (_data_q l) -> status th <> Alive).

(** ** More of the notebooks *)

(** [def process_batch(batch): return {"v0v0": batch["v0v0"]}]
    (test3_callback_fn_edgeloader.ipynb, loader4), read like the vertex
    notebook's callback. *)
Definition process_batch_v0v0 (batch : Value) : result Value :=
  match batch with
  | VDict d =>
      match lookup "v0v0" d with
      | Some t => Ok (VDict [("v0v0", t)])
      | None => Raise (KeyError "v0v0")
      end
  | VFrame t =>
      match lookup "v0v0" t with
      | Some c => Ok (VDict [("v0v0", VFrame [("v0v0", c)])])
      | None => Raise (KeyError "v0v0")
      end
  | _ => Raise (TypeError "object is not subscriptable")
  end.


(** The table of type [t] in the batch assembled from [raw] under the
    mapping [m]. *)
Definition table_of (m : list (string * list string)) (t : string)
  (raw : RawBatch) : Value :=
  VFrame (frame ("vid" :: attrs_of m t) (rows_of_type t raw)).

(** What a loop is handed from the items pending on a pass: the batches up to
    the end marker, or no return when the items run out before it. *)
Fixpoint yielded (pend : Queue) : outcome (list Value) :=
  match pend with
  | [] => Blocked
  | None :: _ => Returned []
  | Some v :: rest =>
      match yielded rest with
      | Returned vs => Returned (v :: vs)
      | other => other
      end
  end.

(** What a loop over a loader comes to, read off the number of batches, the
    batch kept in [_data] and the items of the pass it would start. *)
Definition verdict (n : nat) (kept : option Value) (pend : Queue)
  : outcome (list Value) :=
  if Nat.eqb n 1 then
    match kept with
    | Some v => Returned [v]
    | None =>
        match pend with
        | [] => Blocked
        | Some v :: _ => Returned [v]
        | None :: _ => Returned [VNone]
        end
    end
  else yielded pend.

(** What a loop leaves of a loader as it found it: the configuration and the
    batch kept in [_data]. *)
Definition same_setup (l l' : Loader) : Prop :=
  num_batches l' = num_batches l /\
  batch_size l' = batch_size l /\
  buffer_size l' = buffer_size l /\
  selection l' = selection l /\
  callback_fn l' = callback_fn l /\
  transport l' = transport l /\
  _data l' = _data l.

(** Whether every raw batch has a line of type [t]. *)
Definition all_have (t : string) (src : list RawBatch) : bool :=
  forallb (fun raw => existsb (fun r => fst r =? t) raw) src.


(** * Properties *)

Unset Implicit Arguments.

(** ** Event logs *)

Lemma calls_app (a b : list Event) : calls (a ++ b) = calls a ++ calls b.
Proof.
  induction a as [|e a IH]; simpl; [reflexivity|].
  destruct e; simpl; rewrite IH; reflexivity.
Qed.

Lemma started_app (a b : list Event) : started (a ++ b) = started a + started b.
Proof.
  induction a as [|e a IH]; simpl; [reflexivity|].
  destruct e; simpl; rewrite IH; reflexivity.
Qed.

(** ** The reader thread against what it is to deliver *)

Section Reader.

Variable sel : Selection.
Variable cb : Obj.

Lemma parse_events (raw : RawBatch) :
  started (fst (_parse_data sel cb raw)) = 0.
Proof. unfold _parse_data. destruct (truthy cb); reflexivity. Qed.

(** However far a thread gets, what it has put and what it still has to put
    make up its stream, and likewise for the callback's arguments. *)
Lemma run_thread_spec (room : nat) (t : list RawBatch) :
  forall th items evs,
    run_thread sel cb room t = (th, items, evs) ->
    items ++ future sel cb th = stream sel cb t /\
    calls evs ++ future_calls sel cb th = callargs sel cb t /\
    started evs = 0 /\
    (In None items -> status th = Finished).
Proof.
  revert t. induction room as [|room IH]; intros t th items evs H; simpl in H.
  - inversion H; subst. unfold future, future_calls. simpl.
    repeat split; try reflexivity. intros [].
  - destruct t as [|raw rest].
    + inversion H; subst. unfold future, future_calls. simpl.
      repeat split; reflexivity.
    + simpl. destruct (_parse_data sel cb raw) as [pe [v|e]] eqn:P; simpl.
      * destruct (run_thread sel cb room rest) as [[th' items'] evs'] eqn:R.
        inversion H; subst. destruct (IH _ _ _ _ R) as (A & B & C & D).
        repeat split.
        -- simpl. rewrite A. reflexivity.
        -- rewrite calls_app. simpl. rewrite <- app_assoc, B. reflexivity.
        -- rewrite started_app. simpl. rewrite C.
           pose proof (parse_events raw) as E. rewrite P in E. simpl in E. lia.
        -- intros [X|X]; [discriminate|auto].
      * inversion H; subst. unfold future, future_calls. simpl.
        repeat split.
        -- rewrite calls_app. simpl. rewrite !app_nil_r. reflexivity.
        -- rewrite started_app. simpl.
           pose proof (parse_events raw) as E. rewrite P in E. simpl in E. lia.
        -- intros [].
Qed.

(** A thread with room puts something whenever it has something to put. *)
Lemma run_thread_progress (room : nat) (t : list RawBatch) :
  stream sel cb t <> [] ->
  snd (fst (run_thread sel cb (S room) t)) <> [].
Proof.
  destruct t as [|raw rest]; simpl; [discriminate|].
  destruct (_parse_data sel cb raw) as [pe [v|e]]; simpl.
  - destruct (run_thread sel cb room rest) as [[th' items'] evs']. simpl.
    discriminate.
  - intros H. contradiction.
Qed.

(** A thread with room whose next batch makes [_parse_data] raise dies. *)
Lemma run_thread_dies (room : nat) (t : list RawBatch) :
  stream sel cb t = [] ->
  exists rest e evs,
    run_thread sel cb (S room) t = (mkThread rest (Died e), [], evs).
Proof.
  destruct t as [|raw rest]; simpl; [discriminate|].
  destruct (_parse_data sel cb raw) as [pe [v|e]]; simpl.
  - discriminate.
  - intros _. eauto.
Qed.

End Reader.

(** ** The consumer against the reader thread *)

Lemma schedule_one (sel : Selection) (cb : Obj) (size : nat) (q : Queue)
  (th : Thread) :
  schedule sel cb size q [th] =
  let '(th', items, evs) := _read_data sel cb size q th in
  ([th'], q ++ items, evs ++ []).
Proof.
  simpl. destruct (_read_data sel cb size q th) as [[th' items] evs].
  reflexivity.
Qed.

Lemma room_for_empty (size : nat) (th : Thread) :
  exists r, room_for size [] th = S r.
Proof.
  unfold room_for. destruct size as [|n]; simpl; eauto.
Qed.

(** While something is pending, the blocking get returns the next item. *)
Lemma get_some (l : Loader) (item : option Value) (rest : Queue)
  (cs : list Value) :
  Runs l (item :: rest) cs ->
  exists q ths evs,
    _data_q_get l = (Returned item, with_run q ths evs l) /\
    Runs (with_run q ths evs l) rest cs /\
    started evs = 0 /\
    (item = None -> calls (events (with_run q ths evs l)) = cs) /\
    In (Got item) evs /\
    List.length ths = 1.
Proof.
  intros (th & Hth & Hpend & Hcalls & Hmark).
  unfold _data_q_get. rewrite Hth, schedule_one. unfold _read_data.
  destruct (status th) eqn:St.
  - (* the thread is alive and runs *)
    destruct (run_thread (selection l) (callback_fn l)
                (room_for (buffer_size l) (_data_q l) th) (todo th))
      as [[th' items] evs] eqn:R.
    destruct (run_thread_spec _ _ _ _ _ _ _ R) as (A & B & C & D).
    assert (F : future (selection l) (callback_fn l) th =
                stream (selection l) (callback_fn l) (todo th))
      by (unfold future; rewrite St; reflexivity).
    assert (FC : future_calls (selection l) (callback_fn l) th =
                 callargs (selection l) (callback_fn l) (todo th))
      by (unfold future_calls; rewrite St; reflexivity).
    assert (P : (_data_q l ++ items) ++ future (selection l) (callback_fn l) th'
                = item :: rest)
      by (rewrite <- app_assoc, A, <- F; exact Hpend).
    destruct (_data_q l ++ items) as [|i q'] eqn:Q.
    + exfalso. apply app_eq_nil in Q. destruct Q as [Q1 Q2].
      rewrite Q1 in *. simpl in Hpend.
      destruct (room_for_empty (buffer_size l) th) as [r Hr].
      rewrite Hr in R.
      assert (N : stream (selection l) (callback_fn l) (todo th) <> [])
        by (rewrite <- F, Hpend; discriminate).
      pose proof (run_thread_progress (selection l) (callback_fn l) r _ N) as G.
      rewrite R in G. simpl in G. contradiction.
    + simpl in P. inversion P; subst i.
      assert (M : In None (item :: q') -> status th' = Finished).
      { rewrite <- Q. intros X. apply in_app_or in X. destruct X as [X|X].
        - exfalso. exact (Hmark X eq_refl).
        - auto. }
      exists q', [th'], ((evs ++ []) ++ [Got item]). repeat split.
      * exists th'. simpl. repeat split; auto.
        -- rewrite !calls_app. simpl. rewrite !app_nil_r.
           rewrite <- app_assoc, B, <- FC. exact Hcalls.
        -- intros X Y. rewrite (M (or_intror X)) in Y. discriminate.
      * rewrite !started_app, C. reflexivity.
      * intros ->. simpl. rewrite !calls_app. simpl. rewrite !app_nil_r.
        rewrite <- Hcalls, FC, <- B.
        unfold future_calls. rewrite (M (or_introl eq_refl)).
        rewrite app_nil_r. reflexivity.
      * apply in_or_app. right. left. reflexivity.
  - (* the thread is through: the queue holds what is left *)
    unfold future in Hpend. rewrite St in Hpend.
    unfold future_calls in Hcalls. rewrite St in Hcalls.
    rewrite !app_nil_r in *. rewrite Hpend.
    exists rest, [th], ([] ++ [Got item]). repeat split.
    + exists th. simpl. unfold future, future_calls. rewrite St.
      rewrite !calls_app. simpl. rewrite !app_nil_r.
      repeat split; auto. intros _ Y. congruence.
    + simpl. rewrite calls_app. simpl. rewrite app_nil_r. intros _. exact Hcalls.
    + simpl. auto.
  - unfold future in Hpend. rewrite St in Hpend.
    unfold future_calls in Hcalls. rewrite St in Hcalls.
    rewrite !app_nil_r in *. rewrite Hpend.
    exists rest, [th], ([] ++ [Got item]). repeat split.
    + exists th. simpl. unfold future, future_calls. rewrite St.
      rewrite !calls_app. simpl. rewrite !app_nil_r.
      repeat split; auto. intros _ Y. congruence.
    + simpl. rewrite calls_app. simpl. rewrite app_nil_r. intros _. exact Hcalls.
    + simpl. auto.
Qed.

(** With nothing pending the blocking get never returns. *)
Lemma get_none (l : Loader) (cs : list Value) :
  Runs l [] cs ->
  exists ths evs,
    _data_q_get l = (Blocked, with_run [] ths evs l) /\
    started evs = 0 /\
    calls (events (with_run [] ths evs l)) = cs /\
    alive ths = [].
Proof.
  intros (th & Hth & Hpend & Hcalls & Hmark).
  apply app_eq_nil in Hpend. destruct Hpend as [Hq Hf].
  unfold _data_q_get. rewrite Hth, schedule_one, Hq. unfold _read_data.
  unfold future in Hf. unfold future_calls in Hcalls.
  destruct (status th) eqn:St.
  - destruct (room_for_empty (buffer_size l) th) as [r Hr]. rewrite Hr.
    destruct (run_thread_dies (selection l) (callback_fn l) r _ Hf)
      as (rest & e & evs & R).
    destruct (run_thread_spec _ _ _ _ _ _ _ R) as (A & B & C & D).
    rewrite R. simpl. exists [mkThread rest (Died e)], (evs ++ []).
    repeat split.
    + rewrite started_app, C. reflexivity.
    + simpl. rewrite !calls_app. simpl. rewrite app_nil_r.
      unfold future_calls in B. simpl in B. rewrite app_nil_r in B.
      rewrite B. exact Hcalls.
  - simpl. exists [th], ([] ++ []). repeat split.
    + simpl. rewrite !app_nil_r in *. exact Hcalls.
    + unfold alive. simpl. rewrite St. reflexivity.
  - simpl. exists [th], ([] ++ []). repeat split.
    + simpl. rewrite !app_nil_r in *. exact Hcalls.
    + unfold alive. simpl. rewrite St. reflexivity.
Qed.

(** Once only the end marker is pending, the callback has been called with
    all it will ever be called with. *)
Lemma Runs_marker_last (l : Loader) (cs : list Value) :
  Runs l [None] cs -> calls (events l) = cs.
Proof.
  intros (th & Hth & Hpend & Hcalls & Hmark).
  unfold future in Hpend. unfold future_calls in Hcalls.
  destruct (status th) eqn:St;
    try (rewrite app_nil_r in Hcalls; exact Hcalls).
  destruct (_data_q l) as [|i q].
  - simpl in Hpend. destruct (todo th) as [|raw rest].
    + simpl in Hcalls. rewrite app_nil_r in Hcalls. exact Hcalls.
    + simpl in Hpend.
      destruct (snd (_parse_data (selection l) (callback_fn l) raw));
        discriminate.
  - simpl in Hpend. inversion Hpend; subst i.
    exfalso. exact (Hmark (or_introl eq_refl) eq_refl).
Qed.

(** The loop over the loader hands out the pending batches up to the end
    marker and ends. *)
Lemma drain_delivers (vs : list Value) :
  forall (l : Loader) (cs : list Value) (fuel : nat),
    Runs l (map Some vs ++ [None]) cs ->
    _iterator l = true ->
    List.length vs < fuel ->
    exists l',
      drain fuel l = (Returned vs, l') /\
      calls (events l') = cs /\
      started (events l') = started (events l).
Proof.
  induction vs as [|v vs IH]; intros l cs fuel HR Hit Hfuel;
    (destruct fuel as [|fuel]; [simpl in Hfuel; lia|]);
    simpl in HR; destruct (get_some _ _ _ _ HR) as (q & ths & evs & G & R & S0 & M & _);
    simpl; unfold __next__; rewrite Hit, G.
  - eexists. repeat split.
    + simpl. apply M. reflexivity.
    + simpl. rewrite started_app, S0. lia.
  - destruct (IH (with_run q ths evs l) cs fuel R Hit) as (l' & D & C & S1).
    { simpl in Hfuel. lia. }
    rewrite D. exists l'. repeat split; auto.
    rewrite S1. simpl. rewrite started_app, S0. lia.
Qed.


(** [_reset] then [_start] leaves one thread, with the whole pass ahead. *)
Lemma start_reset_Runs (l : Loader) :
  Runs (_start (_reset l))
       (stream (selection l) (callback_fn l) (transport l (started (events l))))
       (calls (events l) ++
        callargs (selection l) (callback_fn l) (transport l (started (events l)))).
Proof.
  assert (E : started (events l ++ [ThreadsStopped]) = started (events l))
    by (rewrite started_app; simpl; lia).
  exists (mkThread (transport l (started (events l))) Alive).
  unfold _start, _reset. simpl. rewrite E.
  unfold future, future_calls. simpl.
  rewrite !calls_app. simpl. rewrite !app_nil_r.
  repeat split. intros [].
Qed.

Lemma start_reset_started (l : Loader) :
  started (events (_start (_reset l))) = S (started (events l)).
Proof.
  unfold _start, _reset. simpl. rewrite !started_app. simpl. lia.
Qed.

(** ** What the reader thread's stream is *)

Section Streams.

Variable sel : Selection.
Variable cb : Obj.

Lemma stream_parse_all (t : list RawBatch) (vs : list Value) :
  parse_all sel cb t = Ok vs -> stream sel cb t = map Some vs ++ [None].
Proof.
  revert vs. induction t as [|raw rest IH]; intros vs H; simpl in *.
  - inversion H. reflexivity.
  - destruct (snd (_parse_data sel cb raw)) as [v|e]; [|discriminate].
    destruct (parse_all sel cb rest) as [vs'|e]; [|discriminate].
    inversion H. simpl. rewrite (IH vs' eq_refl). reflexivity.
Qed.

Lemma parse_all_length (t : list RawBatch) (vs : list Value) :
  parse_all sel cb t = Ok vs -> List.length vs = List.length t.
Proof.
  revert vs. induction t as [|raw rest IH]; intros vs H; simpl in *.
  - inversion H. reflexivity.
  - destruct (snd (_parse_data sel cb raw)) as [v|e]; [|discriminate].
    destruct (parse_all sel cb rest) as [vs'|e]; [|discriminate].
    inversion H. simpl. rewrite (IH vs' eq_refl). reflexivity.
Qed.

(** A callback that counts as absent leaves every batch as assembled and is
    never called. *)
Lemma parse_all_falsy (t : list RawBatch) :
  truthy cb = false ->
  parse_all sel cb t = Ok (map (assemble sel) t) /\ callargs sel cb t = [].
Proof.
  intros F. induction t as [|raw rest [IH1 IH2]]; simpl; [auto|].
  unfold _parse_data. rewrite F. simpl.
  rewrite IH1. auto.
Qed.

(** A callback that is there and returns on every batch is called with each
    assembled batch once, in order, and its results are the stream. *)
Lemma parse_all_truthy (t : list RawBatch) (outs : list Value) :
  truthy cb = true ->
  Forall2 (fun raw out => call cb (assemble sel raw) = Ok out) t outs ->
  parse_all sel cb t = Ok outs /\ callargs sel cb t = map (assemble sel) t.
Proof.
  intros T H. induction H as [|raw out rest outs' H1 H2 [IH1 IH2]]; simpl; [auto|].
  unfold _parse_data in *. rewrite T in *. simpl in *.
  rewrite H1, IH1, IH2. auto.
Qed.

(** A callback that is there and cannot be called stops the stream at the
    first batch. *)
Lemma stream_uncallable (raw : RawBatch) (rest : list RawBatch) :
  truthy cb = true -> callable cb = false ->
  stream sel cb (raw :: rest) = [] /\
  callargs sel cb (raw :: rest) = [assemble sel raw].
Proof.
  intros T C. simpl. unfold _parse_data. rewrite T. simpl.
  destruct cb; simpl in *; try discriminate; auto.
Qed.

End Streams.

(** ** A full pass over a loader *)

Lemma Runs_with_iterator (b : bool) (l : Loader) (pend : Queue)
  (cs : list Value) :
  Runs l pend cs -> Runs (with_iterator b l) pend cs.
Proof. intros (th & H). exists th. exact H. Qed.

(** If [_parse_data] returns on every raw batch of the pass, the [for] loop
    sees exactly its results, in order, and ends. *)
Lemma for_loop_delivers (l : Loader) (outs : list Value) (fuel : nat) :
  _data l = None ->
  parse_all (selection l) (callback_fn l) (transport l (started (events l)))
    = Ok outs ->
  (num_batches l = 1 ->
   List.length (transport l (started (events l))) = 1) ->
  List.length outs < fuel ->
  exists l',
    for_loop fuel l = (Returned outs, l') /\
    calls (events l') =
      calls (events l) ++
      callargs (selection l) (callback_fn l) (transport l (started (events l))) /\
    started (events l') = S (started (events l)).
Proof.
  intros Hd Hp Hone Hfuel.
  pose proof (start_reset_Runs l) as HR.
  pose proof (start_reset_started l) as HS.
  rewrite (stream_parse_all _ _ _ _ Hp) in HR.
  unfold for_loop, __iter__, data.
  destruct (Nat.eqb (num_batches l) 1) eqn:E.
  - apply Nat.eqb_eq in E. specialize (Hone E).
    pose proof (parse_all_length _ _ _ _ Hp) as L. rewrite Hone in L.
    destruct outs as [|v [|v' outs]]; try discriminate.
    simpl in HR. rewrite Hd.
    destruct (get_some _ _ _ _ HR) as (q & ths & evs & G & R & S0 & _).
    rewrite G. eexists. repeat split.
    + simpl. exact (Runs_marker_last _ _ R).
    + simpl. simpl in HS. rewrite started_app, S0.
      rewrite Nat.add_0_r. exact HS.
  - destruct (drain_delivers outs _ _ fuel
                (Runs_with_iterator true _ _ _ HR) eq_refl Hfuel)
      as (l' & D & C & S1).
    rewrite D. exists l'. repeat split; auto.
    rewrite S1. exact HS.
Qed.

(** If [_parse_data] raises on the first raw batch of the pass, the [for]
    loop neither yields nor ends: a reader thread was started, it is dead,
    and the consumer waits on the empty queue. *)
Lemma for_loop_blocks (l : Loader) (fuel : nat) :
  _data l = None ->
  stream (selection l) (callback_fn l) (transport l (started (events l))) = [] ->
  0 < fuel ->
  exists l',
    for_loop fuel l = (Blocked, l') /\
    started (events l') = S (started (events l)) /\
    alive (_threads l') = [] /\
    _data_q l' = [].
Proof.
  intros Hd Hs Hfuel.
  pose proof (start_reset_Runs l) as HR.
  pose proof (start_reset_started l) as HS.
  rewrite Hs in HR.
  unfold for_loop, __iter__, data.
  destruct (Nat.eqb (num_batches l) 1) eqn:E.
  - rewrite Hd.
    destruct (get_none _ _ HR) as (ths & evs & G & S0 & C & A).
    rewrite G. eexists. repeat split.
    + simpl. simpl in HS. rewrite started_app, S0.
      rewrite Nat.add_0_r. exact HS.
    + exact A.
  - destruct fuel as [|fuel]; [lia|]. simpl. unfold __next__. simpl.
    destruct (get_none _ _ (Runs_with_iterator true _ _ _ HR))
      as (ths & evs & G & S0 & C & A).
    rewrite G. eexists. repeat split.
    + simpl. simpl in HS. rewrite started_app, S0.
      rewrite Nat.add_0_r. exact HS.
    + exact A.
Qed.

(** ** Grouping a list by a key *)

Section Grouping.

Context {A K : Type}.
Variable key : A -> K.
Variable eqb : K -> K -> bool.
Hypothesis eqb_eq : forall a b, eqb a b = true <-> a = b.

Lemma pick_cons (x : A) (l : list A) (k : K) :
  pick key eqb (x :: l) k =
  if eqb (key x) k then x :: pick key eqb l k else pick key eqb l k.
Proof. reflexivity. Qed.

Lemma group_skip (x : A) (l : list A) (ks : list K) :
  ~ In (key x) ks ->
  flat_map (pick key eqb (x :: l)) ks = flat_map (pick key eqb l) ks.
Proof.
  induction ks as [|k ks IH]; intros N; cbn [flat_map]; [reflexivity|].
  rewrite IH by (intros X; apply N; right; exact X).
  rewrite pick_cons. destruct (eqb (key x) k) eqn:E; [|reflexivity].
  exfalso. apply N. left. symmetry. apply eqb_eq. exact E.
Qed.

Lemma group_take (x : A) (l : list A) (ks : list K) :
  NoDup ks -> In (key x) ks ->
  Permutation (flat_map (pick key eqb (x :: l)) ks)
              (x :: flat_map (pick key eqb l) ks).
Proof.
  induction ks as [|k ks IH]; intros ND I; [destruct I|].
  inversion ND as [|? ? Nin ND']; subst. cbn [flat_map]. rewrite pick_cons.
  destruct (eqb (key x) k) eqn:E.
  - apply eqb_eq in E. subst k. rewrite group_skip by exact Nin.
    reflexivity.
  - destruct I as [I|I].
    + exfalso. assert (T : eqb (key x) k = true) by (apply eqb_eq; auto).
      congruence.
    + rewrite (IH ND' I). symmetry. apply Permutation_middle.
Qed.

(** Taking, key by key, the elements that carry it loses and repeats
    nothing, as long as the keys are distinct and cover the list. *)
Lemma group_perm (l : list A) (ks : list K) :
  NoDup ks -> (forall x, In x l -> In (key x) ks) ->
  Permutation (flat_map (pick key eqb l) ks) l.
Proof.
  intros ND. induction l as [|x l IH]; intros C.
  - clear C ND. induction ks as [|k ks IHk]; cbn [flat_map]; auto.
  - rewrite group_take; auto.
    + constructor. apply IH. intros y Y. apply C. right. exact Y.
    + apply C. left. reflexivity.
Qed.

End Grouping.

(** ** The transport *)

Lemma delivery_perm (conn : Connection) (pass n : nat) :
  valid_broker conn -> Permutation (seq 0 n) (delivery conn pass n).
Proof.
  intros V. unfold delivery. destruct (broker conn) as [arrival|] eqn:B.
  - apply (V arrival B).
  - reflexivity.
Qed.

Lemma delivery_length (conn : Connection) (pass n : nat) :
  valid_broker conn -> List.length (delivery conn pass n) = n.
Proof.
  intros V. rewrite <- (Permutation_length (delivery_perm conn pass n V)).
  apply length_seq.
Qed.

Lemma serve_length (conn : Connection) (sel : Selection)
  (fb : option string) (sh : bool) (n pass : nat) :
  valid_broker conn -> List.length (serve conn sel fb sh n pass) = n.
Proof.
  intros V. unfold serve. rewrite length_map. apply delivery_length. exact V.
Qed.

(** Every element of the filtered set is in exactly one partition of a
    pass, whatever order the partitions are delivered in. *)
Lemma partitions_cover (conn : Connection) (sel : Selection)
  (fb : option string) (sh : bool) (n pass : nat) :
  valid_broker conn -> 0 < n ->
  Permutation
    (flat_map (partition conn sel fb sh pass n) (delivery conn pass n))
    (filtered sel fb (graph conn)).
Proof.
  intros V N.
  apply (group_perm (partition_of conn sh pass n) Nat.eqb Nat.eqb_eq).
  - apply (Permutation_NoDup (delivery_perm conn pass n V)). apply seq_NoDup.
  - intros v _. apply (Permutation_in _ (delivery_perm conn pass n V)).
    apply in_seq. unfold partition_of. split; [lia|]. simpl.
    apply Nat.mod_upper_bound. lia.
Qed.

(** ** The assembler *)

Lemma types_of_NoDup (raw : RawBatch) : NoDup (types_of raw).
Proof.
  induction raw as [|[t c] raw IH]; simpl; constructor.
  - intros X. apply filter_In in X. destruct X as [_ X].
    rewrite String.eqb_refl in X. discriminate.
  - apply NoDup_filter. exact IH.
Qed.

Lemma types_of_In (raw : RawBatch) (t : string) :
  In t (types_of raw) <-> In t (map fst raw).
Proof.
  induction raw as [|[t' c] raw IH]; simpl; [tauto|].
  rewrite filter_In, IH. split.
  - intros [X|[X _]]; auto.
  - intros [X|X]; auto.
    destruct (String.eqb_spec t t') as [E|E]; [left; auto|right].
    split; [exact X|]. reflexivity.
Qed.

Lemma frame_keys (names : list string) (rows : list (list Cell)) :
  keys (frame names rows) = names.
Proof.
  unfold keys, frame. rewrite map_map. simpl.
  rewrite <- (map_map fst (fun x => x)), map_id.
  generalize 0 as k. induction names as [|a names IH]; intros k; simpl.
  - reflexivity.
  - rewrite IH. reflexivity.
Qed.

Lemma frame_rectangular (names : list string) (rows : list (list Cell)) :
  rectangular (List.length rows) (VFrame (frame names rows)) = true.
Proof.
  unfold rectangular, frame. apply forallb_forall. intros c I.
  apply in_map_iff in I. destruct I as (ni & <- & _). simpl.
  unfold column. rewrite length_map. apply Nat.eqb_refl.
Qed.

Lemma table_vids_frame (names : list string) (rows : list (list Cell)) :
  table_vids (VFrame (frame ("vid" :: names) rows)) = column rows 0.
Proof. reflexivity. Qed.

(** The rows of an assembled batch are the lines of the raw batch: none is
    lost and none repeated, also when they are grouped by type. *)
Lemma batch_vids_assemble (sel : Selection) (raw : RawBatch) :
  Permutation (batch_vids (assemble sel raw)) (map row_vid raw).
Proof.
  destruct sel as [a|m]; simpl.
  - unfold column. rewrite map_map. reflexivity.
  - rewrite flat_map_concat_map, map_map. simpl.
    rewrite <- flat_map_concat_map.
    assert (E : forall t,
               column (rows_of_type t raw) 0 =
               map row_vid (filter (fun r => fst r =? t) raw)).
    { intros t. unfold column, rows_of_type. rewrite map_map. reflexivity. }
    rewrite (flat_map_ext _ _ E).
    rewrite flat_map_concat_map, <- map_map, <- concat_map.
    apply Permutation_map. rewrite <- flat_map_concat_map.
    apply (group_perm fst String.eqb String.eqb_eq).
    + apply types_of_NoDup.
    + intros r I. apply types_of_In. apply in_map. exact I.
Qed.

Lemma row_vid_raw_row (sel : Selection) (part : list Vertex) :
  map row_vid (map (raw_row sel) part) = map (fun v => CInt (vid v)) part.
Proof. rewrite map_map. reflexivity. Qed.

Lemma flat_map_perm {A B : Type} (f g : A -> list B) (l : list A) :
  (forall a, Permutation (f a) (g a)) ->
  Permutation (flat_map f l) (flat_map g l).
Proof.
  intros H. induction l as [|a l IH]; simpl; [constructor|].
  apply Permutation_app; auto.
Qed.

(** The rows of the assembled batches of a pass are the filtered set. *)
Lemma serve_vids (conn : Connection) (sel : Selection) (fb : option string)
  (sh : bool) (n pass : nat) :
  valid_broker conn -> 0 < n ->
  Permutation
    (flat_map batch_vids (map (assemble sel) (serve conn sel fb sh n pass)))
    (map (fun v => CInt (vid v)) (filtered sel fb (graph conn))).
Proof.
  intros V N. unfold serve.
  rewrite flat_map_concat_map, !map_map, <- flat_map_concat_map.
  rewrite <- (Permutation_map _ (partitions_cover conn sel fb sh n pass V N)).
  rewrite (flat_map_concat_map (partition _ _ _ _ _ _)), concat_map, map_map.
  rewrite <- flat_map_concat_map.
  apply flat_map_perm. intros p.
  rewrite batch_vids_assemble, row_vid_raw_row. reflexivity.
Qed.

Lemma total_rows (bs : list Value) :
  total (map batch_rows bs) = List.length (flat_map batch_vids bs).
Proof.
  induction bs as [|b bs IH]; simpl; [reflexivity|].
  rewrite length_app, IH. reflexivity.
Qed.

Lemma parse_all_passes_through (sel : Selection) (cb : Obj)
  (t : list RawBatch) :
  passes_through cb -> parse_all sel cb t = Ok (map (assemble sel) t).
Proof.
  intros [F| ->].
  - apply parse_all_falsy. exact F.
  - apply (parse_all_truthy sel (OFun process_batch) t); [reflexivity|].
    induction t; simpl; constructor; auto.
Qed.

(** ** Dicts *)

Lemma lookup_None {A : Type} (k : string) (d : list (string * A)) :
  lookup k d = None <-> ~ In k (keys d).
Proof.
  induction d as [|[k' v] d IH]; simpl.
  - tauto.
  - destruct (String.eqb_spec k' k) as [E|E].
    + split; [discriminate|]. intros N. exfalso. apply N. left. exact E.
    + rewrite IH. tauto.
Qed.

Lemma lookup_Some {A : Type} (k : string) (d : list (string * A)) :
  In k (keys d) -> exists a, lookup k d = Some a.
Proof.
  intros I. destruct (lookup k d) as [a|] eqn:E; [eauto|].
  apply lookup_None in E. contradiction.
Qed.

Lemma lookup_In {A : Type} (k : string) (d : list (string * A)) (a : A) :
  lookup k d = Some a -> In (k, a) d.
Proof.
  induction d as [|[k' v] d IH]; simpl; [discriminate|].
  destruct (String.eqb_spec k' k) as [E|E].
  - intros H. inversion H. subst. left. reflexivity.
  - intros H. right. exact (IH H).
Qed.

(** ** Reading a frame row by row *)

Lemma nth_seq {A : Type} (r : list A) (d : A) :
  map (fun j => nth j r d) (seq 0 (List.length r)) = r.
Proof.
  induction r as [|a r IH]; simpl; [reflexivity|].
  rewrite <- seq_shift, map_map. simpl. rewrite IH. reflexivity.
Qed.

Lemma column_nth (rs : list (list Cell)) (i j : nat) :
  nth i (column rs j) CNull = nth j (nth i rs []) CNull.
Proof.
  unfold column. revert i. induction rs as [|r rs IH]; intros i; simpl.
  - destruct i, j; reflexivity.
  - destruct i; [reflexivity|apply IH].
Qed.

Lemma frame_row (names : list string) (rs : list (list Cell)) (i : nat) :
  map (fun c => nth i (snd c) CNull) (frame names rs) =
  map (fun j => nth j (nth i rs []) CNull) (seq 0 (List.length names)).
Proof.
  unfold frame. rewrite map_map. simpl.
  generalize 0 as k. induction names as [|a names IH]; intros k; simpl.
  - reflexivity.
  - rewrite column_nth, IH. reflexivity.
Qed.

(** Read row by row, a frame gives back the rows it was made of. *)
Lemma records_frame (a : string) (names : list string)
  (rs : list (list Cell)) :
  Forall (fun r => List.length r = S (List.length names)) rs ->
  records (VFrame (frame (a :: names) rs)) = rs.
Proof.
  intros H. unfold records.
  assert (Hh : height (frame (a :: names) rs) = List.length rs).
  { unfold frame, height. simpl. unfold column. apply length_map. }
  rewrite Hh. rewrite (map_ext_in _ (fun i => nth i rs [])).
  - apply nth_seq.
  - intros i I. apply in_seq in I. rewrite frame_row.
    assert (L : List.length (nth i rs []) = List.length (a :: names)).
    { rewrite Forall_forall in H. apply H. apply nth_In. lia. }
    rewrite <- L. apply nth_seq.
Qed.

(** ** What the server prints against what the assembler makes of it *)

Lemma raw_row_holds (sel : Selection) (v : Vertex) :
  has_attributes (requested sel v) v = true ->
  row_holds (requested sel v) v (snd (raw_row sel v)) /\
  List.length (snd (raw_row sel v)) = S (List.length (requested sel v)).
Proof.
  unfold raw_row, requested. simpl snd.
  generalize (match sel with
              | Flat a => a
              | ByType m => attrs_of m (vtype v)
              end) as a.
  intros a H. split.
  - exists (map (fun x => cell x v) a). split; [reflexivity|].
    induction a as [|x a IH]; simpl; constructor.
    + simpl in H. apply andb_true_iff in H. destruct H as [H _].
      unfold cell. destruct (lookup x (attrs v)); [reflexivity|discriminate].
    + apply IH. simpl in H. apply andb_true_iff in H. tauto.
  - simpl. rewrite length_map. reflexivity.
Qed.

Lemma rows_hold (sel : Selection) (a : list string) (part : list Vertex) :
  (forall v, In v part ->
     requested sel v = a /\ has_attributes a v = true) ->
  Forall2 (row_holds a) part (map (fun v => snd (raw_row sel v)) part) /\
  Forall (fun r => List.length r = S (List.length a))
         (map (fun v => snd (raw_row sel v)) part).
Proof.
  induction part as [|v part IH]; intros H; simpl.
  - split; constructor.
  - destruct (H v (or_introl eq_refl)) as [R A].
    destruct IH as [F2 F1]; [intros w W; apply H; right; exact W|].
    rewrite <- R in A. destruct (raw_row_holds sel v A) as [RH L].
    rewrite R in RH, L. split; constructor; assumption.
Qed.

Lemma filter_map {A B : Type} (f : B -> bool) (g : A -> B) (l : list A) :
  filter f (map g l) = map g (filter (fun x => f (g x)) l).
Proof.
  induction l as [|x l IH]; simpl; [reflexivity|].
  destruct (f (g x)); simpl; rewrite IH; reflexivity.
Qed.

Lemma filter_all {A : Type} (f : A -> bool) (l : list A) :
  (forall x, In x l -> f x = true) -> filter f l = l.
Proof.
  induction l as [|x l IH]; intros H; simpl; [reflexivity|].
  rewrite (H x (or_introl eq_refl)), IH; [reflexivity|].
  intros y Y. apply H. right. exact Y.
Qed.

(** The filtered set: the vertices of the graph whose type the selection
    takes and whose [filter_by] attribute, if one is named, is true. *)
Lemma filtered_In (sel : Selection) (fb : option string) (g : list Vertex)
  (v : Vertex) :
  In v (filtered sel fb g) <->
  In v g /\ type_selected sel v = true /\
  (forall a, fb = Some a -> lookup a (attrs v) = Some (CBool true)).
Proof.
  unfold filtered. rewrite filter_In, andb_true_iff. unfold passes.
  destruct fb as [a|].
  - split.
    + intros (I & T & P). repeat split; auto. intros a' E. inversion E. subst a'.
      destruct (lookup a (attrs v)) as [[z|s|[|]|]|]; try discriminate.
      reflexivity.
    + intros (I & T & P). repeat split; auto. rewrite (P a eq_refl).
      reflexivity.
  - split.
    + intros (I & T & _). repeat split; auto. discriminate.
    + intros (I & T & _). auto.
Qed.

(** The batch assembled from the lines of a set of vertices holds exactly
    those vertices: their identifiers and the values of the attributes asked
    for, under the columns asked for. *)
Lemma assemble_carries (sel : Selection) (part : list Vertex) :
  (forall v, In v part ->
     type_selected sel v = true /\
     has_attributes (requested sel v) v = true) ->
  carries sel part (assemble sel (map (raw_row sel) part)).
Proof.
  intros H. destruct sel as [a|m]; unfold carries, assemble.
  - destruct (rows_hold (Flat a) a part) as [F2 F1].
    { intros v V. split; [reflexivity|apply (H v V)]. }
    split.
    + unfold columns. rewrite frame_keys. reflexivity.
    + rewrite map_map, records_frame by exact F1. exact F2.
  - set (raw := map (raw_row (ByType m)) part).
    assert (K : keys (map (fun t => (t, VFrame (frame ("vid" :: attrs_of m t)
                                                   (rows_of_type t raw))))
                          (types_of raw)) = types_of raw).
    { unfold keys. rewrite map_map. simpl. apply map_id. }
    assert (T : forall t, In t (types_of raw) <-> In t (map vtype part)).
    { intros t. rewrite types_of_In. unfold raw. rewrite map_map. simpl.
      tauto. }
    eexists. split; [reflexivity|]. rewrite K. split; [|split].
    + apply types_of_NoDup.
    + exact T.
    + intros t tbl I. apply in_map_iff in I. destruct I as (t' & E & I).
      inversion E; subst t' tbl. clear E.
      apply T in I. apply in_map_iff in I. destruct I as (v & Vt & V).
      destruct (H v V) as [S0 _]. simpl in S0.
      apply existsb_exists in S0. destruct S0 as (t' & I & E).
      apply String.eqb_eq in E. rewrite Vt in E. subst t'.
      destruct (lookup_Some t m I) as [a La]. exists a. split; [exact La|].
      assert (Ea : attrs_of m t = a) by (unfold attrs_of; rewrite La; reflexivity).
      rewrite Ea.
      destruct (rows_hold (ByType m) a (filter (fun w => vtype w =? t) part))
        as [F2 F1].
      { intros w W. apply filter_In in W. destruct W as [W Wt].
        apply String.eqb_eq in Wt. simpl. rewrite Wt, Ea. split; [reflexivity|].
        destruct (H w W) as [_ A]. simpl in A. rewrite Wt, Ea in A. exact A. }
      assert (R : rows_of_type t raw =
                  map (fun w => snd (raw_row (ByType m) w))
                      (filter (fun w => vtype w =? t) part)).
      { unfold rows_of_type, raw. rewrite filter_map, map_map. reflexivity. }
      split.
      * unfold columns. rewrite frame_keys. reflexivity.
      * rewrite R, records_frame by exact F1. exact F2.
Qed.

(** A batch that holds vertices under a mapping follows the mapping. *)
Lemma carries_typed (m : list (string * list string)) (part : list Vertex)
  (b : Value) :
  carries (ByType m) part b -> typed_as m b.
Proof.
  intros (d & -> & ND & K & T). exists d. split; [reflexivity|]. split.
  - intros t tbl I. destruct (T t tbl I) as (a & La & C & _). eauto.
  - intros t N. apply lookup_None. intros I. unfold keys in I.
    apply in_map_iff in I. destruct I as ([t' tbl] & E & I). simpl in E.
    subst t'. destruct (T t tbl I) as (a & La & _). congruence.
Qed.

(** Keeping the [v0] table of a batch that follows the mapping gives a batch
    that follows the mapping. *)
Lemma process_batch_v0_typed (m : list (string * list string))
  (b out : Value) :
  typed_as m b -> process_batch_v0 b = Ok out -> typed_as m out.
Proof.
  intros (d & -> & T & N) H. simpl in H.
  destruct (lookup "v0" d) as [t|] eqn:L; [|discriminate].
  inversion H. subst out. eexists. split; [reflexivity|]. split.
  - intros t' tbl [E|[]]. inversion E. subst t' tbl.
    apply (T "v0" t). apply lookup_In. exact L.
  - intros t' N'. apply lookup_None. intros [I|[]]. simpl in I. subst t'.
    rewrite (N _ N') in L. discriminate.
Qed.

(** ** The callback stage *)

Lemma stage_parse (sel : Selection) (cb : Obj) (raw : RawBatch) :
  snd (_parse_data sel cb raw) = callback_stage cb (assemble sel raw).
Proof. unfold _parse_data, callback_stage. destruct (truthy cb); reflexivity. Qed.

Lemma stage_passes_through (cb : Obj) (b : Value) :
  passes_through cb -> callback_stage cb b = Ok b.
Proof.
  unfold callback_stage. intros [F| ->]; [rewrite F|]; reflexivity.
Qed.

Lemma stage_all_passes_through (cb : Obj) (bs : list Value) :
  passes_through cb ->
  Forall2 (fun b out => callback_stage cb b = Ok out) bs bs.
Proof.
  intros P. induction bs; constructor; auto using stage_passes_through.
Qed.

Lemma stage_same (cb : Obj) (bs outs : list Value) :
  passes_through cb ->
  Forall2 (fun b out => callback_stage cb b = Ok out) bs outs ->
  outs = bs.
Proof.
  intros P H. induction H as [|b out bs outs H1 _ IH]; [reflexivity|].
  rewrite (stage_passes_through cb b P) in H1. inversion H1. subst.
  reflexivity.
Qed.

(** If the callback stage returns on every assembled batch, [_parse_data]
    returns on every raw batch, and the callback, if there is one, is called
    with each assembled batch once, in order. *)
Lemma parse_all_stage (sel : Selection) (cb : Obj) (t : list RawBatch)
  (outs : list Value) :
  Forall2 (fun b out => callback_stage cb b = Ok out)
          (map (assemble sel) t) outs ->
  parse_all sel cb t = Ok outs /\
  callargs sel cb t = if truthy cb then map (assemble sel) t else [].
Proof.
  revert outs. induction t as [|raw rest IH]; intros outs H;
    simpl in H; inversion H as [|b out bs outs' H1 H2]; subst; simpl.
  - destruct (truthy cb); auto.
  - destruct (IH _ H2) as [P C]. rewrite stage_parse, H1, P, C.
    split; [reflexivity|]. unfold _parse_data.
    destruct (truthy cb); reflexivity.
Qed.

(** ** Loaders as the constructor makes them *)

Lemma vertexLoader_Ok (conn : Connection) (kw : Kwargs) (l : Loader) :
  vertexLoader conn kw = Ok l ->
  exists n b,
    l = mkLoader n b (default 4 (kw_buffer_size kw)) (kw_attributes kw)
          (kw_callback_fn kw)
          (serve conn (kw_attributes kw) (kw_filter_by kw) (kw_shuffle kw) n)
          None [] [] false [] /\
    resolve_sizing
      (List.length (filtered (kw_attributes kw) (kw_filter_by kw) (graph conn)))
      (kw_batch_size kw) (kw_num_batches kw) = Ok (n, b) /\
    filter_is_boolean (kw_attributes kw) (kw_filter_by kw) (graph conn) = true /\
    attributes_exist (kw_attributes kw) (graph conn) = true.
Proof.
  unfold vertexLoader.
  destruct (resolve_sizing _ _ _) as [[n b]|e]; [|discriminate].
  destruct (filter_is_boolean _ _ _); simpl; [|discriminate].
  destruct (attributes_exist _ _); simpl; [|discriminate].
  intros H. inversion H. exists n, b. auto.
Qed.

(** The constructor does not look at the callback. *)
Lemma vertexLoader_any_callback (conn : Connection) (kw : Kwargs)
  (cb : Obj) (l0 : Loader) :
  vertexLoader conn (with_callback_fn cb kw) = Ok l0 ->
  exists l,
    vertexLoader conn kw = Ok l /\
    num_batches l = num_batches l0 /\
    selection l = selection l0 /\
    transport l = transport l0.
Proof.
  unfold vertexLoader. simpl.
  destruct (resolve_sizing _ _ _) as [[n b]|e]; [|discriminate].
  destruct (filter_is_boolean _ _ _); simpl; [|discriminate].
  destruct (attributes_exist _ _); simpl; [|discriminate].
  intros H. inversion H. eexists. repeat split.
Qed.

(** A pass over a fresh loader on which the callback stage returns yields
    the stage's results, one per partition, and ends; the callback, if there
    is one, has been called with each assembled batch once. *)
Lemma constructed_pass (conn : Connection) (kw : Kwargs) (l : Loader)
  (outs : list Value) (fuel : nat) :
  vertexLoader conn kw = Ok l ->
  valid_broker conn ->
  Forall2 (fun b out => callback_stage (kw_callback_fn kw) b = Ok out)
          (assembled l 0) outs ->
  num_batches l < fuel ->
  exists l',
    for_loop fuel l = (Returned outs, l') /\
    List.length outs = num_batches l /\
    List.length (assembled l 0) = num_batches l /\
    started (events l') = 1 /\
    calls (events l') =
      if truthy (kw_callback_fn kw) then assembled l 0 else [].
Proof.
  intros C V H F.
  destruct (vertexLoader_Ok _ _ _ C) as (n & b & -> & _).
  unfold assembled in *. simpl in *.
  destruct (parse_all_stage _ _ _ _ H) as [P A].
  pose proof (parse_all_length _ _ _ _ P) as L.
  rewrite serve_length in L by exact V.
  destruct (for_loop_delivers
              (mkLoader n b (default 4 (kw_buffer_size kw)) (kw_attributes kw)
                 (kw_callback_fn kw)
                 (serve conn (kw_attributes kw) (kw_filter_by kw)
                    (kw_shuffle kw) n) None [] [] false [])
              outs fuel)
    as (l' & L' & Cs & S1).
  - reflexivity.
  - exact P.
  - simpl. intros E. rewrite serve_length by exact V. exact E.
  - rewrite L. exact F.
  - exists l'. simpl in Cs. rewrite A in Cs.
    rewrite length_map, serve_length by exact V. auto.
Qed.

(** The assembled batches of the first pass of a fresh loader hold the
    partitions of the filtered set, one batch each; with one batch, that is
    the filtered set as it stands. *)
Lemma constructed_parts (conn : Connection) (kw : Kwargs) (l : Loader) :
  vertexLoader conn kw = Ok l ->
  valid_broker conn ->
  exists parts,
    Forall2 (carries (kw_attributes kw)) parts (assembled l 0) /\
    (0 < num_batches l ->
     Permutation (List.concat parts)
       (filtered (kw_attributes kw) (kw_filter_by kw) (graph conn))) /\
    (num_batches l = 1 ->
     parts = [filtered (kw_attributes kw) (kw_filter_by kw) (graph conn)]).
Proof.
  intros C V.
  destruct (vertexLoader_Ok _ _ _ C) as (n & b & -> & _ & _ & A).
  unfold assembled. simpl.
  set (sel := kw_attributes kw) in *. set (fb := kw_filter_by kw).
  set (sh := kw_shuffle kw).
  exists (map (partition conn sel fb sh 0 n) (delivery conn 0 n)).
  split; [|split].
  - unfold serve. rewrite map_map.
    induction (delivery conn 0 n) as [|p ps IH]; simpl; constructor;
      [|exact IH].
    apply assemble_carries. intros v I.
    unfold partition in I. apply filter_In in I. destruct I as [I _].
    unfold filtered in I. apply filter_In in I. destruct I as [I S0].
    apply andb_true_iff in S0. destruct S0 as [S0 _]. split; [exact S0|].
    unfold attributes_exist in A. rewrite forallb_forall in A. apply A.
    apply filter_In. auto.
  - intros N. rewrite <- flat_map_concat_map.
    apply partitions_cover; assumption.
  - intros N. subst n.
    pose proof (delivery_perm conn 0 1 V) as D. simpl in D.
    apply Permutation_length_1_inv in D. rewrite D. simpl.
    unfold partition. rewrite filter_all; [reflexivity|].
    intros v _. unfold partition_of. rewrite Nat.mod_1_r. reflexivity.
Qed.

(** If [_parse_data] raises on the first raw batch of the pass, the reader
    thread dies there, having called the callback at most that once, and the
    [for] loop blocks on the empty queue. *)
Lemma get_dies (l : Loader) (raw : RawBatch) (rest : list RawBatch) (e : Exn) :
  _threads l = [mkThread (raw :: rest) Alive] ->
  _data_q l = [] ->
  snd (_parse_data (selection l) (callback_fn l) raw) = Raise e ->
  _data_q_get l =
    (Blocked,
     with_run [] [mkThread rest (Died e)]
       ((fst (_parse_data (selection l) (callback_fn l) raw) ++ [ThreadDied e])
        ++ []) l).
Proof.
  intros Hth Hq Hp. unfold _data_q_get.
  rewrite Hth, schedule_one, Hq. unfold _read_data. cbn [status todo].
  destruct (room_for_empty (buffer_size l) (mkThread (raw :: rest) Alive))
    as [r Hr].
  rewrite Hr. cbn [run_thread].
  destruct (_parse_data (selection l) (callback_fn l) raw) as [pe [v|e']];
    simpl in Hp; [discriminate|].
  inversion Hp. subst e'. reflexivity.
Qed.

Lemma for_loop_dies (l : Loader) (raw : RawBatch) (rest : list RawBatch)
  (e : Exn) (fuel : nat) :
  _data l = None ->
  transport l (started (events l)) = raw :: rest ->
  snd (_parse_data (selection l) (callback_fn l) raw) = Raise e ->
  0 < fuel ->
  exists l',
    for_loop fuel l = (Blocked, l') /\
    started (events l') = S (started (events l)) /\
    _threads l' = [mkThread rest (Died e)] /\
    _data_q l' = [] /\
    calls (events l') =
      calls (events l) ++
      calls (fst (_parse_data (selection l) (callback_fn l) raw)) /\
    In (ThreadDied e) (events l').
Proof.
  intros Hd Ht Hp Hfuel.
  assert (E : started (events l ++ [ThreadsStopped]) = started (events l))
    by (rewrite started_app; simpl; lia).
  assert (S0 : started (fst (_parse_data (selection l) (callback_fn l) raw)) = 0)
    by apply parse_events.
  assert (Fin : forall l0,
             events l0 = events l ++ [ThreadsStopped] ++ [ThreadStarted] ->
             let l' := with_run [] [mkThread rest (Died e)]
                         ((fst (_parse_data (selection l) (callback_fn l) raw)
                           ++ [ThreadDied e]) ++ []) l0 in
             started (events l') = S (started (events l)) /\
             _threads l' = [mkThread rest (Died e)] /\
             _data_q l' = [] /\
             calls (events l') =
               calls (events l) ++
               calls (fst (_parse_data (selection l) (callback_fn l) raw)) /\
             In (ThreadDied e) (events l')).
  { intros l0 Ev. simpl. rewrite Ev. repeat split.
    - rewrite !started_app, S0. simpl. lia.
    - rewrite !calls_app. simpl. rewrite !app_nil_r. reflexivity.
    - apply in_or_app. right. apply in_or_app. left.
      apply in_or_app. right. left. reflexivity. }
  unfold for_loop, __iter__, data.
  destruct (Nat.eqb (num_batches l) 1) eqn:N.
  - rewrite Hd.
    rewrite (get_dies (_start (_reset l)) raw rest e).
    + eexists. split; [reflexivity|]. apply Fin.
      unfold _start, _reset. simpl. rewrite <- app_assoc. reflexivity.
    + unfold _start, _reset. simpl. rewrite E, Ht. reflexivity.
    + reflexivity.
    + exact Hp.
  - destruct fuel as [|fuel]; [lia|]. simpl. unfold __next__. simpl.
    rewrite (get_dies (with_iterator true (_start (_reset l))) raw rest e).
    + eexists. split; [reflexivity|]. apply Fin.
      unfold _start, _reset. simpl. rewrite <- app_assoc. reflexivity.
    + unfold _start, _reset. simpl. rewrite E, Ht. reflexivity.
    + reflexivity.
    + exact Hp.
Qed.

(** * The callback stage *)

(** A callback that is there and cannot be called: the constructor lets it
    through wherever it lets the call through without a callback, and the
    first pass blocks.  One reader thread is started; it calls the callback
    on the first assembled batch, which raises [TypeError], and dies of it;
    nothing is ever put on the queue the consumer waits on. *)
Lemma uncallable_blocks (conn : Connection) (kw : Kwargs) (l0 : Loader)
  (fuel : nat) :
  vertexLoader conn (with_callback_fn ONone kw) = Ok l0 ->
  truthy (kw_callback_fn kw) = true ->
  callable (kw_callback_fn kw) = false ->
  valid_broker conn ->
  0 < num_batches l0 ->
  0 < fuel ->
  exists l raw rest msg l',
    vertexLoader conn kw = Ok l /\
    transport l 0 = raw :: rest /\
    call (kw_callback_fn kw) (assemble (kw_attributes kw) raw) =
      Raise (TypeError msg) /\
    for_loop fuel l = (Blocked, l') /\
    started (events l') = 1 /\
    _threads l' = [mkThread rest (Died (TypeError msg))] /\
    calls (events l') = [assemble (kw_attributes kw) raw] /\
    In (ThreadDied (TypeError msg)) (events l') /\
    _data_q l' = [].
Proof.
  intros C0 T NC V N F.
  destruct (vertexLoader_any_callback conn kw ONone l0 C0) as (l & C & Nl & _).
  rewrite <- Nl in N. clear C0 Nl l0.
  destruct (vertexLoader_Ok _ _ _ C) as (n & b & E & _).
  assert (M : exists msg, forall x,
             call (kw_callback_fn kw) x = Raise (TypeError msg)).
  { destruct (kw_callback_fn kw); simpl in *; try discriminate; eauto. }
  destruct M as [msg M].
  pose proof (serve_length conn (kw_attributes kw) (kw_filter_by kw)
                (kw_shuffle kw) n 0 V) as L.
  destruct (serve conn (kw_attributes kw) (kw_filter_by kw) (kw_shuffle kw) n 0)
    as [|raw rest] eqn:S0.
  { rewrite E in N. simpl in N, L. lia. }
  destruct (for_loop_dies l raw rest (TypeError msg) fuel)
    as (l' & B & S1 & Th & Q & Cs & D).
  - rewrite E. reflexivity.
  - rewrite E. simpl. exact S0.
  - rewrite E. simpl. unfold _parse_data. rewrite T. simpl. apply M.
  - exact F.
  - exists l, raw, rest, msg, l'. rewrite E in S1, Cs. simpl in S1, Cs.
    unfold _parse_data in Cs. rewrite T in Cs. simpl in Cs.
    split; [exact C|]. split; [rewrite E; exact S0|]. split; [apply M|].
    repeat split; assumption.
Qed.

(** The notebook's testcase2 after [configureKafka]: the streamed loader
    blocks the same way. *)
Lemma uncallable_blocks_witness :
  exists l raw rest msg l',
    vertexLoader (over_kafka cora) testcase2 = Ok l /\
    transport l 0 = raw :: rest /\
    call (kw_callback_fn testcase2) (assemble (kw_attributes testcase2) raw) =
      Raise (TypeError msg) /\
    for_loop 1 l = (Blocked, l') /\
    started (events l') = 1 /\
    _threads l' = [mkThread rest (Died (TypeError msg))] /\
    calls (events l') = [assemble (kw_attributes testcase2) raw] /\
    In (ThreadDied (TypeError msg)) (events l') /\
    _data_q l' = [].
Proof.
  apply (uncallable_blocks (over_kafka cora) testcase2
           (loader_of (over_kafka cora) (with_callback_fn ONone testcase2)) 1).
  - reflexivity.
  - reflexivity.
  - reflexivity.
  - intros arrival H. inversion H. intros pass ids. apply Permutation_rev.
  - vm_compute. lia.
  - lia.
Defined.

(** C1, at the notebook's input.  [vertexLoader(num_batches=1,
    attributes=["id","x","y"], callback_fn="uncallble_string")] is
    constructed without error; looping over it starts the reader thread, the
    thread dies of [TypeError: 'str' object is not callable] in
    [_parse_data], and the consumer stays blocked on the empty queue: no
    [ConfigError] is raised, at construction or later. *)
Theorem uncallable_string_hangs :
  exists l,
    vertexLoader (over_http cora) testcase2 = Ok l /\
    fst (for_loop 1 l) = Blocked /\
    started (events (snd (for_loop 1 l))) = 1 /\
    map status (_threads (snd (for_loop 1 l))) =
      [Died (TypeError "'str' object is not callable")] /\
    _data_q (snd (for_loop 1 l)) = [].
Proof.
  eexists. split; [reflexivity|]. vm_compute. repeat split.
Qed.

(** C10.  With [callback_fn = 0] the constructor succeeds wherever it does
    without a callback, the loop over the loader ends without error, and the
    batches it yields are the assembled batches, the same as without a
    callback; the callback is never called. *)
Theorem zero_callback_is_no_callback (conn : Connection) (kw : Kwargs)
  (l0 : Loader) (fuel : nat) :
  kw_callback_fn kw = OInt 0 ->
  vertexLoader conn (with_callback_fn ONone kw) = Ok l0 ->
  valid_broker conn ->
  num_batches l0 < fuel ->
  exists l l' l0',
    vertexLoader conn kw = Ok l /\
    for_loop fuel l =
      (Returned (map (assemble (selection l0)) (transport l0 0)), l') /\
    for_loop fuel l0 =
      (Returned (map (assemble (selection l0)) (transport l0 0)), l0') /\
    calls (events l') = [].
Proof.
  intros Z C0 V F.
  destruct (vertexLoader_any_callback conn kw ONone l0 C0)
    as (l & C & N & S0 & T0).
  destruct (constructed_pass conn kw l (assembled l 0) fuel C V)
    as (l' & L & _ & _ & _ & K).
  { apply stage_all_passes_through. left. rewrite Z. reflexivity. }
  { rewrite N. exact F. }
  destruct (constructed_pass conn (with_callback_fn ONone kw) l0
              (assembled l0 0) fuel C0 V) as (l0' & L0 & _).
  { apply stage_all_passes_through. left. reflexivity. }
  { exact F. }
  exists l, l', l0'. unfold assembled in L, L0. rewrite S0, T0 in L.
  rewrite Z in K. auto.
Qed.

(** The notebook's testcase1 on the 2708 vertices, over HTTP. *)
Lemma zero_callback_is_no_callback_witness :
  exists l l' l0',
    vertexLoader (over_http cora) testcase1 = Ok l /\
    for_loop 2 l =
      (Returned (map (assemble (Flat ["id"; "x"; "y"]))
                     (transport (loader_of (over_http cora)
                                   (with_callback_fn ONone testcase1)) 0)), l') /\
    for_loop 2 (loader_of (over_http cora) (with_callback_fn ONone testcase1)) =
      (Returned (map (assemble (Flat ["id"; "x"; "y"]))
                     (transport (loader_of (over_http cora)
                                   (with_callback_fn ONone testcase1)) 0)), l0') /\
    calls (events l') = [].
Proof.
  apply (zero_callback_is_no_callback (over_http cora) testcase1
           (loader_of (over_http cora) (with_callback_fn ONone testcase1)) 2).
  - reflexivity.
  - reflexivity.
  - intros arrival H. discriminate H.
  - vm_compute. lia.
Defined.

(** C4.  A callback that is a function is called once per batch, in order,
    with the assembled batch as its argument, and what it returns, whatever
    that is, is what the loop over the loader yields in the batch's place. *)
Theorem callback_once_per_batch (l : Loader) (f : Value -> result Value)
  (outs : list Value) (fuel : nat) :
  callback_fn l = OFun f ->
  _data l = None ->
  Forall2 (fun raw out => f (assemble (selection l) raw) = Ok out)
          (transport l (started (events l))) outs ->
  (num_batches l = 1 -> List.length (transport l (started (events l))) = 1) ->
  List.length outs < fuel ->
  exists l',
    for_loop fuel l = (Returned outs, l') /\
    calls (events l') =
      calls (events l) ++
      map (assemble (selection l)) (transport l (started (events l))).
Proof.
  intros Hcb Hd Hf Hone Hfuel.
  destruct (parse_all_truthy (selection l) (callback_fn l)
              (transport l (started (events l))) outs) as [P A].
  { rewrite Hcb. reflexivity. }
  { rewrite Hcb. exact Hf. }
  destruct (for_loop_delivers l outs fuel Hd P Hone Hfuel) as (l' & L & C & _).
  exists l'. split; [exact L|]. rewrite C, A. reflexivity.
Qed.

(** The notebook's loader4: the callback keeps the [v0] table of every
    batch. *)
Lemma callback_once_per_batch_witness :
  exists l',
    for_loop 11 (loader_of (over_http hetero) loader4) =
      (Returned (outputs process_batch_v0 (loader_of (over_http hetero) loader4)),
       l') /\
    calls (events l') =
      calls (events (loader_of (over_http hetero) loader4)) ++
      map (assemble (selection (loader_of (over_http hetero) loader4)))
          (transport (loader_of (over_http hetero) loader4)
             (started (events (loader_of (over_http hetero) loader4)))).
Proof.
  apply (callback_once_per_batch (loader_of (over_http hetero) loader4)
           process_batch_v0
           (outputs process_batch_v0 (loader_of (over_http hetero) loader4)) 11).
  - reflexivity.
  - reflexivity.
  - vm_compute. repeat constructor.
  - intros H. vm_compute in H. discriminate H.
  - vm_compute. lia.
Defined.

(** * The single batch and the [data] accessor *)

(** The first access to [data] of a single-batch loader starts a pass and
    takes the first batch off the queue. *)
Lemma data_first (l : Loader) (v : Value) (rest : Queue) :
  num_batches l = 1 ->
  _data l = None ->
  stream (selection l) (callback_fn l) (transport l (started (events l)))
    = Some v :: rest ->
  exists q ths evs,
    data l = (Returned (TheBatch v),
              with_data (Some v) (with_run q ths evs (_start (_reset l)))) /\
    started evs = 0 /\
    In (Got (Some v)) evs /\
    List.length ths = 1.
Proof.
  intros N D S.
  pose proof (start_reset_Runs l) as HR. rewrite S in HR.
  destruct (get_some _ _ _ _ HR) as (q & ths & evs & G & _ & S0 & _ & I & L).
  unfold data. rewrite N, D. simpl. rewrite G.
  exists q, ths, evs. auto.
Qed.




(** C2, as amended.  With [num_batches = 1] the pass assembles exactly one
    batch, and it holds the filtered set: every filtered vertex as one row,
    with its identifier and the values of the attributes asked for.  Whenever
    the callback stage returns on that batch (there is no callback, or the
    callback returns), the loop over a fresh loader yields exactly one
    batch, the stage's result, which is the assembled batch itself when the
    callback is absent or hands its batch on.  The batch is made by a reader
    thread that the access to [data] starts, is taken off the queue by a
    blocking get, and is kept in [_data]. *)
Theorem single_batch_through_queue (conn : Connection) (kw : Kwargs)
  (l : Loader) (fuel : nat) :
  vertexLoader conn kw = Ok l ->
  num_batches l = 1 ->
  valid_broker conn ->
  exists b,
    assembled l 0 = [b] /\
    carries (kw_attributes kw)
      (filtered (kw_attributes kw) (kw_filter_by kw) (graph conn)) b /\
    (passes_through (kw_callback_fn kw) ->
     callback_stage (kw_callback_fn kw) b = Ok b) /\
    (forall out,
       callback_stage (kw_callback_fn kw) b = Ok out ->
       exists l',
         for_loop fuel l = (Returned [out], l') /\
         started (events l') = 1 /\
         In (Got (Some out)) (events l') /\
         _data l' = Some out).
Proof.
  intros C N V.
  destruct (constructed_parts conn kw l C V) as (parts & F2 & _ & P1).
  rewrite (P1 N) in F2. clear P1.
  inversion F2 as [|p b ps bs' Cb Fnil E1 A]. subst p ps.
  inversion Fnil as [E2 E3|]. subst bs'. clear F2 Fnil.
  exists b. split; [reflexivity|]. split; [exact Cb|]. split.
  { apply stage_passes_through. }
  intros out Hs.
  destruct (vertexLoader_Ok _ _ _ C) as (n & b0 & E & _).
  assert (S0 : stream (selection l) (callback_fn l)
                 (transport l (started (events l))) = [Some out; None]).
  { apply (stream_parse_all _ _ _ [out]).
    apply (parse_all_stage (selection l) (callback_fn l)).
    rewrite E. simpl. rewrite E in A. unfold assembled in A. simpl in A.
    rewrite <- A. constructor; [exact Hs|constructor]. }
  destruct (data_first l out [None] N) as (q & ths & evs & Ed & St & I & _).
  - rewrite E. reflexivity.
  - exact S0.
  - eexists. unfold for_loop, __iter__. rewrite N, Ed. simpl.
    split; [reflexivity|]. rewrite E. simpl. repeat split.
    + rewrite St. reflexivity.
    + auto.
Qed.

(** The notebook's testcase1 on the 2708 vertices. *)
Lemma single_batch_through_queue_witness :
  exists b,
    assembled (loader_of (over_http cora) testcase1) 0 = [b] /\
    carries (kw_attributes testcase1)
      (filtered (kw_attributes testcase1) (kw_filter_by testcase1)
                (graph (over_http cora))) b /\
    (passes_through (kw_callback_fn testcase1) ->
     callback_stage (kw_callback_fn testcase1) b = Ok b) /\
    (forall out,
       callback_stage (kw_callback_fn testcase1) b = Ok out ->
       exists l',
         for_loop 1 (loader_of (over_http cora) testcase1) =
           (Returned [out], l') /\
         started (events l') = 1 /\
         In (Got (Some out)) (events l') /\
         _data l' = Some out).
Proof.
  apply (single_batch_through_queue (over_http cora) testcase1
           (loader_of (over_http cora) testcase1) 1).
  - reflexivity.
  - reflexivity.
  - intros arrival H. discriminate H.
Defined.

(** C2, as stated, fails: the single batch of testcase1 is not computed
    inline, a reader thread is started and the batch comes off the queue. *)
Lemma single_batch_has_background_work :
  exists l,
    vertexLoader (over_http cora) testcase1 = Ok l /\
    num_batches l = 1 /\
    ~ no_background_work (snd (for_loop 1 l)).
Proof.
  eexists. split; [reflexivity|]. split; [reflexivity|].
  intros [H _]. vm_compute in H. discriminate H.
Qed.

(** * Partitions *)

(** C3, as amended.  Over a full pass of a fresh loader with at least one
    batch, fetched in bulk or streamed in whatever order the messages
    arrive, on which the callback stage returns: the assembled batches hold
    the partitions of the filtered set, every filtered vertex in exactly one
    of them as one row, and their row counts add up to the size of the
    filtered set; the loop yields the callback stage's results on them, one
    per batch; a callback that is there has been called with each assembled
    batch once; and when the callback is absent or hands its batch on, the
    batches the loop yields are the assembled ones. *)
Theorem every_element_in_one_batch (conn : Connection) (kw : Kwargs)
  (l : Loader) (outs : list Value) (fuel : nat) :
  vertexLoader conn kw = Ok l ->
  valid_broker conn ->
  0 < num_batches l ->
  Forall2 (fun b out => callback_stage (kw_callback_fn kw) b = Ok out)
          (assembled l 0) outs ->
  num_batches l < fuel ->
  exists parts l',
    (forall v,
       In v (List.concat parts) <->
       In v (graph conn) /\ type_selected (kw_attributes kw) v = true /\
       (forall a, kw_filter_by kw = Some a ->
                  lookup a (attrs v) = Some (CBool true))) /\
    Permutation (List.concat parts)
      (filtered (kw_attributes kw) (kw_filter_by kw) (graph conn)) /\
    Forall2 (carries (kw_attributes kw)) parts (assembled l 0) /\
    List.length (assembled l 0) = num_batches l /\
    Permutation (flat_map batch_vids (assembled l 0))
      (map (fun v => CInt (vid v))
           (filtered (kw_attributes kw) (kw_filter_by kw) (graph conn))) /\
    total (map batch_rows (assembled l 0)) =
      List.length (filtered (kw_attributes kw) (kw_filter_by kw) (graph conn)) /\
    for_loop fuel l = (Returned outs, l') /\
    List.length outs = num_batches l /\
    (truthy (kw_callback_fn kw) = true ->
     calls (events l') = assembled l 0) /\
    (passes_through (kw_callback_fn kw) -> outs = assembled l 0).
Proof.
  intros C V N H F.
  destruct (constructed_pass conn kw l outs fuel C V H F)
    as (l' & L & Lo & La & _ & K).
  destruct (constructed_parts conn kw l C V) as (parts & F2 & P & _).
  assert (SV : Permutation (flat_map batch_vids (assembled l 0))
                 (map (fun v => CInt (vid v))
                      (filtered (kw_attributes kw) (kw_filter_by kw)
                                (graph conn)))).
  { destruct (vertexLoader_Ok _ _ _ C) as (n & b & E & _).
    rewrite E in N |- *. unfold assembled. simpl in *.
    apply serve_vids; assumption. }
  exists parts, l'. split; [|repeat split; auto].
  - intros v. rewrite <- filtered_In. split; intros I.
    + exact (Permutation_in v (P N) I).
    + exact (Permutation_in v (Permutation_sym (P N)) I).
  - rewrite total_rows, (Permutation_length SV), length_map. reflexivity.
  - intros T. rewrite K, T. reflexivity.
  - intros P0. exact (stage_same _ _ _ P0 H).
Qed.

(** The notebook's [vertex_loader5]: twenty shuffled batches of the 2708
    vertices, streamed, with the callback that returns its batch. *)
Lemma every_element_in_one_batch_witness :
  exists parts l',
    (forall v,
       In v (List.concat parts) <->
       In v (graph (over_kafka cora)) /\
       type_selected (kw_attributes vertex_loader5) v = true /\
       (forall a, kw_filter_by vertex_loader5 = Some a ->
                  lookup a (attrs v) = Some (CBool true))) /\
    Permutation (List.concat parts)
      (filtered (kw_attributes vertex_loader5) (kw_filter_by vertex_loader5)
                (graph (over_kafka cora))) /\
    Forall2 (carries (kw_attributes vertex_loader5)) parts
      (assembled (loader_of (over_kafka cora) vertex_loader5) 0) /\
    List.length (assembled (loader_of (over_kafka cora) vertex_loader5) 0) =
      num_batches (loader_of (over_kafka cora) vertex_loader5) /\
    Permutation
      (flat_map batch_vids
         (assembled (loader_of (over_kafka cora) vertex_loader5) 0))
      (map (fun v => CInt (vid v))
           (filtered (kw_attributes vertex_loader5)
                     (kw_filter_by vertex_loader5) (graph (over_kafka cora)))) /\
    total (map batch_rows
             (assembled (loader_of (over_kafka cora) vertex_loader5) 0)) =
      List.length (filtered (kw_attributes vertex_loader5)
                            (kw_filter_by vertex_loader5)
                            (graph (over_kafka cora))) /\
    for_loop 21 (loader_of (over_kafka cora) vertex_loader5) =
      (Returned (assembled (loader_of (over_kafka cora) vertex_loader5) 0),
       l') /\
    List.length (assembled (loader_of (over_kafka cora) vertex_loader5) 0) =
      num_batches (loader_of (over_kafka cora) vertex_loader5) /\
    (truthy (kw_callback_fn vertex_loader5) = true ->
     calls (events l') =
       assembled (loader_of (over_kafka cora) vertex_loader5) 0) /\
    (passes_through (kw_callback_fn vertex_loader5) ->
     assembled (loader_of (over_kafka cora) vertex_loader5) 0 =
       assembled (loader_of (over_kafka cora) vertex_loader5) 0).
Proof.
  apply (every_element_in_one_batch (over_kafka cora) vertex_loader5
           (loader_of (over_kafka cora) vertex_loader5)
           (assembled (loader_of (over_kafka cora) vertex_loader5) 0) 21).
  - reflexivity.
  - intros arrival H. inversion H. intros pass ids. apply Permutation_rev.
  - vm_compute. lia.
  - vm_compute. repeat constructor.
  - vm_compute. lia.
Defined.

(** C3, as stated, fails over the batches the loop yields: the notebook's
    loader4 is a valid configuration whose filtered set has 190 vertices
    (types [v0] and [v1]); its callback keeps the [v0] table of every batch,
    so the ten batches of a pass hold 90 rows between them. *)
Lemma restricting_callback_drops_rows :
  exists l batches,
    vertexLoader (over_http hetero) loader4 = Ok l /\
    fst (for_loop 11 l) = Returned batches /\
    List.length batches = 10 /\
    List.length (filtered (kw_attributes loader4) (kw_filter_by loader4)
                          hetero) = 190 /\
    total (map batch_rows batches) = 90 /\
    ~ Permutation (flat_map batch_vids batches)
        (map (fun v => CInt (vid v))
             (filtered (kw_attributes loader4) (kw_filter_by loader4) hetero)).
Proof.
  eexists. eexists. split; [reflexivity|]. split; [vm_compute; reflexivity|].
  split; [reflexivity|]. split; [reflexivity|]. split; [reflexivity|].
  intros P. apply Permutation_length in P. vm_compute in P. discriminate P.
Qed.

(** The row counts the notebook printed for the twenty batches of
    [vertex_loader5] add up to the 2708 vertices. *)
Example vertex_loader5_shapes_total :
  List.length vertex_loader5_shapes = 20 /\ total vertex_loader5_shapes = 2708.
Proof. split; reflexivity. Qed.

(** * Heterogeneous selections *)

(** C6.  With the attributes given as a mapping from type name to attribute
    list, a pass over a fresh loader on which the callback stage returns
    assembles one batch per partition of the filtered set, each keyed by
    type: every type with a vertex in the partition has one table, whose
    columns are exactly the identifier column and the attributes requested
    for the type and whose rows are the partition's vertices of that type
    with their values; a type the mapping leaves out has no table.  The loop
    yields the callback stage's results on these batches: the batches
    themselves when the callback is absent or hands its batch on, and
    batches that still follow the mapping under the notebook's callback that
    keeps the [v0] table. *)
Theorem hetero_columns (conn : Connection) (kw : Kwargs)
  (m : list (string * list string)) (l : Loader) (outs : list Value)
  (fuel : nat) :
  kw_attributes kw = ByType m ->
  vertexLoader conn kw = Ok l ->
  valid_broker conn ->
  Forall2 (fun b out => callback_stage (kw_callback_fn kw) b = Ok out)
          (assembled l 0) outs ->
  num_batches l < fuel ->
  exists parts l',
    for_loop fuel l = (Returned outs, l') /\
    List.length outs = num_batches l /\
    List.length (assembled l 0) = num_batches l /\
    Forall2 (carries (ByType m)) parts (assembled l 0) /\
    (0 < num_batches l ->
     Permutation (List.concat parts)
       (filtered (ByType m) (kw_filter_by kw) (graph conn))) /\
    Forall (typed_as m) (assembled l 0) /\
    (passes_through (kw_callback_fn kw) -> outs = assembled l 0) /\
    (kw_callback_fn kw = OFun process_batch_v0 -> Forall (typed_as m) outs).
Proof.
  intros A C V H F.
  destruct (constructed_pass conn kw l outs fuel C V H F)
    as (l' & L & Lo & La & _).
  destruct (constructed_parts conn kw l C V) as (parts & F2 & P & _).
  rewrite A in F2, P.
  assert (T : Forall (typed_as m) (assembled l 0)).
  { clear - F2. induction F2 as [|p b ps bs Cb _ IH]; constructor; auto.
    exact (carries_typed m p b Cb). }
  exists parts, l'. repeat split; auto.
  - intros P0. exact (stage_same _ _ _ P0 H).
  - intros E. rewrite E in H. clear - T H.
    induction H as [|b out bs outs H1 _ IH]; constructor.
    + inversion T; subst. unfold callback_stage in H1. simpl in H1.
      eapply process_batch_v0_typed; eauto.
    + apply IH. inversion T; assumption.
Qed.

(** The notebook's loader3: [{"v0": ["x","y"], "v1": ["x"]}] on a graph that
    also has vertices of type [v2]. *)
Lemma hetero_columns_witness :
  exists parts l',
    for_loop 11 (loader_of (over_http hetero) loader3) =
      (Returned (assembled (loader_of (over_http hetero) loader3) 0), l') /\
    List.length (assembled (loader_of (over_http hetero) loader3) 0) =
      num_batches (loader_of (over_http hetero) loader3) /\
    List.length (assembled (loader_of (over_http hetero) loader3) 0) =
      num_batches (loader_of (over_http hetero) loader3) /\
    Forall2 (carries (ByType [("v0", ["x"; "y"]); ("v1", ["x"])])) parts
      (assembled (loader_of (over_http hetero) loader3) 0) /\
    (0 < num_batches (loader_of (over_http hetero) loader3) ->
     Permutation (List.concat parts)
       (filtered (ByType [("v0", ["x"; "y"]); ("v1", ["x"])])
                 (kw_filter_by loader3) (graph (over_http hetero)))) /\
    Forall (typed_as [("v0", ["x"; "y"]); ("v1", ["x"])])
      (assembled (loader_of (over_http hetero) loader3) 0) /\
    (passes_through (kw_callback_fn loader3) ->
     assembled (loader_of (over_http hetero) loader3) 0 =
       assembled (loader_of (over_http hetero) loader3) 0) /\
    (kw_callback_fn loader3 = OFun process_batch_v0 ->
     Forall (typed_as [("v0", ["x"; "y"]); ("v1", ["x"])])
       (assembled (loader_of (over_http hetero) loader3) 0)).
Proof.
  apply (hetero_columns (over_http hetero) loader3
           [("v0", ["x"; "y"]); ("v1", ["x"])]
           (loader_of (over_http hetero) loader3)
           (assembled (loader_of (over_http hetero) loader3) 0) 11).
  - reflexivity.
  - reflexivity.
  - intros arrival H. discriminate H.
  - vm_compute. repeat constructor.
  - vm_compute. lia.
Defined.

(** * Sizing *)

(** [ceil_div total size] is the least number of batches of [size] rows
    that hold [total] rows. *)
Lemma ceil_div_bounds (total size : nat) :
  0 < size ->
  total <= ceil_div total size * size /\
  ceil_div total size * size < total + size.
Proof.
  intros S. unfold ceil_div.
  pose proof (Nat.div_mod (total + size - 1) size) as D.
  pose proof (Nat.mod_upper_bound (total + size - 1) size) as M.
  split; nia.
Qed.

(** * The example scenario *)

Lemma filtered_all (a : list string) (g : list Vertex) :
  filtered (Flat a) None g = g.
Proof.
  unfold filtered. simpl. induction g as [|v g IH]; simpl; [reflexivity|].
  rewrite IH. reflexivity.
Qed.

Lemma flat_batch_shape (a : list string) (raw : RawBatch) :
  columns (assemble (Flat a) raw) = Some ("vid" :: a) /\
  rectangular (batch_rows (assemble (Flat a) raw)) (assemble (Flat a) raw) = true.
Proof.
  split.
  - unfold assemble, columns. rewrite frame_keys. reflexivity.
  - unfold batch_rows. simpl batch_vids. unfold column.
    rewrite length_map. apply frame_rectangular.
Qed.

(** C9.  On a graph of 2708 vertices that have the attributes [id], [x] and
    [y], with [num_batches=10] and [shuffle=True]: the constructor returns a
    loader, the loop over it yields exactly ten batches, and their row counts
    add up to 2708.  The batches hold the vertices of the graph, each vertex
    as one row of one batch, the row carrying the vertex's [vid] and its
    values of [id], [x] and [y]; every batch is a table with the columns
    [vid], [id], [x], [y], each with a cell for every row. *)
Theorem scenario_ten_batches (conn : Connection) (fuel : nat) :
  List.length (graph conn) = 2708 ->
  attributes_exist (Flat ["id"; "x"; "y"]) (graph conn) = true ->
  valid_broker conn ->
  10 < fuel ->
  exists l batches l' parts,
    vertexLoader conn scenario = Ok l /\
    for_loop fuel l = (Returned batches, l') /\
    List.length batches = 10 /\
    total (map batch_rows batches) = 2708 /\
    Permutation (List.concat parts) (graph conn) /\
    Forall2 (carries (Flat ["id"; "x"; "y"])) parts batches /\
    Forall (fun b => columns b = Some ["vid"; "id"; "x"; "y"] /\
                     rectangular (batch_rows b) b = true) batches.
Proof.
  intros G A V F.
  destruct (vertexLoader conn scenario) as [l|e] eqn:C.
  2:{ unfold vertexLoader in C. simpl in C. rewrite A in C. discriminate C. }
  assert (N : num_batches l = 10).
  { destruct (vertexLoader_Ok _ _ _ C) as (n & b & E & R & _).
    simpl in R. injection R as R1 _. rewrite E. simpl. congruence. }
  destruct (constructed_pass conn scenario l (assembled l 0) fuel C V)
    as (l' & L & Lo & _).
  { apply stage_all_passes_through. left. reflexivity. }
  { rewrite N. exact F. }
  destruct (constructed_parts conn scenario l C V) as (parts & F2 & P & _).
  simpl in F2, P. rewrite filtered_all in P.
  assert (SV : Permutation (flat_map batch_vids (assembled l 0))
                 (map (fun v => CInt (vid v)) (graph conn))).
  { destruct (vertexLoader_Ok _ _ _ C) as (n & b & E & _).
    rewrite E in N |- *. unfold assembled. simpl in N |- *. subst n.
    pose proof (serve_vids conn (Flat ["id"; "x"; "y"]) None true 10 0 V
                  (Nat.lt_0_succ 9)) as SV0.
    rewrite filtered_all in SV0. exact SV0. }
  exists l, (assembled l 0), l', parts.
  split; [reflexivity|]. split; [exact L|]. split; [rewrite Lo; exact N|].
  split; [|split; [|split]].
  - rewrite total_rows, (Permutation_length SV), length_map. exact G.
  - apply P. lia.
  - exact F2.
  - destruct (vertexLoader_Ok _ _ _ C) as (n & b & E & _).
    rewrite E. unfold assembled. simpl.
    apply Forall_forall. intros x I. apply in_map_iff in I.
    destruct I as (raw & <- & _). apply flat_batch_shape.
Qed.

(** The 2708 vertices over HTTP. *)
Lemma scenario_ten_batches_witness :
  exists l batches l' parts,
    vertexLoader (over_http cora) scenario = Ok l /\
    for_loop 11 l = (Returned batches, l') /\
    List.length batches = 10 /\
    total (map batch_rows batches) = 2708 /\
    Permutation (List.concat parts) (graph (over_http cora)) /\
    Forall2 (carries (Flat ["id"; "x"; "y"])) parts batches /\
    Forall (fun b => columns b = Some ["vid"; "id"; "x"; "y"] /\
                     rectangular (batch_rows b) b = true) batches.
Proof.
  apply (scenario_ten_batches (over_http cora) 11).
  - vm_compute. reflexivity.
  - vm_compute. reflexivity.
  - intros arrival H. discriminate H.
  - lia.
Defined.

(** * More on the consumer side *)




(** A blocking get changes the queue, the threads and the log, and nothing
    else of the loader. *)
Lemma get_shape (l : Loader) :
  exists q ths evs, snd (_data_q_get l) = with_run q ths evs l.
Proof.
  unfold _data_q_get.
  destruct (schedule (selection l) (callback_fn l) (buffer_size l)
              (_data_q l) (_threads l)) as [[ths q] evs].
  destruct q as [|item q]; simpl; eauto.
Qed.


(** The loop over the loader comes to what the pending items say. *)
Lemma drain_yielded (pend : Queue) :
  forall (l : Loader) (cs : list Value) (fuel : nat),
    Runs l pend cs ->
    _iterator l = true ->
    List.length pend < fuel ->
    fst (drain fuel l) = yielded pend.
Proof.
  induction pend as [|[v|] pend IH]; intros l cs fuel HR Hit Hfuel;
    (destruct fuel as [|fuel]; [simpl in Hfuel; lia|]);
    simpl; unfold __next__; rewrite Hit.
  - destruct (get_none _ _ HR) as (ths & evs & G & _).
    rewrite G. reflexivity.
  - destruct (get_some _ _ _ _ HR) as (q & ths & evs & G & R & _).
    rewrite G.
    specialize (IH (with_run q ths evs l) cs fuel R Hit).
    destruct (drain fuel (with_run q ths evs l)) as [o l'].
    simpl in IH. rewrite <- IH by (simpl in Hfuel; lia).
    destruct o; reflexivity.
  - destruct (get_some _ _ _ _ HR) as (q & ths & evs & G & _).
    rewrite G. reflexivity.
Qed.




Lemma stream_length (sel : Selection) (cb : Obj) (t : list RawBatch) :
  List.length (stream sel cb t) <= S (List.length t).
Proof.
  induction t as [|raw rest IH]; simpl; [lia|].
  destruct (snd (_parse_data sel cb raw)); simpl; lia.
Qed.

(** With fuel for the pass, the loop over a loader comes to what the number
    of batches, the kept batch and the stream of the pass say, whatever the
    queue holds and whatever threads are around. *)
Lemma for_loop_verdict (l : Loader) (fuel : nat) :
  S (List.length (transport l (started (events l)))) < fuel ->
  fst (for_loop fuel l) =
  verdict (num_batches l) (_data l)
          (stream (selection l) (callback_fn l)
                  (transport l (started (events l)))).
Proof.
  intros F. pose proof (start_reset_Runs l) as HR.
  pose proof (stream_length (selection l) (callback_fn l)
                (transport l (started (events l)))) as SL.
  unfold for_loop, __iter__, verdict, data.
  destruct (Nat.eqb (num_batches l) 1).
  - destruct (_data l) as [v|]; [reflexivity|].
    destruct (stream (selection l) (callback_fn l)
                (transport l (started (events l)))) as [|[v|] rest].
    + destruct (get_none _ _ HR) as (ths & evs & G & _). rewrite G. reflexivity.
    + destruct (get_some _ _ _ _ HR) as (q & ths & evs & G & _).
      rewrite G. reflexivity.
    + destruct (get_some _ _ _ _ HR) as (q & ths & evs & G & _).
      rewrite G. reflexivity.
  - apply (drain_yielded _ _ _ fuel (Runs_with_iterator true _ _ _ HR) eq_refl).
    lia.
Qed.

Lemma stream_passes_through (sel : Selection) (cb : Obj) (t : list RawBatch) :
  passes_through cb ->
  stream sel cb t = map Some (map (assemble sel) t) ++ [None].
Proof.
  intros P. apply stream_parse_all. apply parse_all_passes_through. exact P.
Qed.

(** * The callback that returns its batch *)

Lemma yielded_all (vs : list Value) :
  yielded (map Some vs ++ [None]) = Returned vs.
Proof.
  induction vs as [|v vs IH]; simpl; [reflexivity|]. rewrite IH. reflexivity.
Qed.

(** The notebooks' [process_batch] that returns its batch makes no
    difference to what a loop yields: given fuel for the pass, a loop over a
    loader with it and a loop over a loader with no callback that has the
    same number of batches, selection, kept batch and raw batches of the
    pass the loop starts both end, and yield the same batches. *)
Theorem identity_callback_transparent (l1 l2 : Loader) (fuel : nat) :
  callback_fn l1 = OFun process_batch ->
  callback_fn l2 = ONone ->
  num_batches l1 = num_batches l2 ->
  selection l1 = selection l2 ->
  _data l1 = _data l2 ->
  transport l1 (started (events l1)) = transport l2 (started (events l2)) ->
  S (List.length (transport l1 (started (events l1)))) < fuel ->
  exists vs,
    fst (for_loop fuel l1) = Returned vs /\
    fst (for_loop fuel l2) = Returned vs.
Proof.
  intros C1 C2 N S D T F.
  rewrite (for_loop_verdict l1 fuel F).
  rewrite (for_loop_verdict l2 fuel) by (rewrite <- T; exact F).
  rewrite C1, C2, N, S, D, T.
  rewrite (stream_passes_through _ (OFun process_batch))
    by (right; reflexivity).
  rewrite (stream_passes_through _ ONone) by (left; reflexivity).
  unfold verdict. destruct (Nat.eqb (num_batches l2) 1).
  - destruct (_data l2) as [v|]; [eauto|].
    destruct (map (assemble (selection l2))
                  (transport l2 (started (events l2)))); simpl; eauto.
  - rewrite yielded_all. eauto.
Qed.

(** [vertex_loader1] with its [process_batch] and without a callback. *)
Lemma identity_callback_transparent_witness :
  exists vs,
    fst (for_loop 12 (loader_of (over_http cora) vertex_loader1)) =
      Returned vs /\
    fst (for_loop 12 (loader_of (over_http cora)
                        (with_callback_fn ONone vertex_loader1))) =
      Returned vs.
Proof.
  apply (identity_callback_transparent
           (loader_of (over_http cora) vertex_loader1)
           (loader_of (over_http cora) (with_callback_fn ONone vertex_loader1))
           12).
  - vm_compute. reflexivity.
  - vm_compute. reflexivity.
  - vm_compute. reflexivity.
  - vm_compute. reflexivity.
  - vm_compute. reflexivity.
  - vm_compute. reflexivity.
  - vm_compute. lia.
Defined.

(** * A callback that raises *)



(** * Looping again *)

Lemma same_setup_refl (l : Loader) : same_setup l l.
Proof. repeat split. Qed.

(** Taking batches off the queue leaves the configuration and [_data]. *)
Lemma drain_frame (fuel : nat) :
  forall l, same_setup l (snd (drain fuel l)).
Proof.
  induction fuel as [|fuel IH]; intros l; simpl; [apply same_setup_refl|].
  unfold __next__. destruct (_iterator l); [|apply same_setup_refl].
  destruct (get_shape l) as (q & ths & evs & G).
  destruct (_data_q_get l) as [o l1]. simpl in G. subst l1.
  destruct o as [[v|]|e| |]; simpl.
  - specialize (IH (with_run q ths evs l)).
    destruct (drain fuel (with_run q ths evs l)) as [o l'].
    destruct o; exact IH.
  - repeat split.
  - destruct e; repeat split.
  - repeat split.
  - repeat split.
Qed.

(** A second loop over a loader whose [num_batches] is not 1 is a pass of
    its own.  If [_parse_data] returns on every raw batch of the pass the
    first loop starts and of the one after it, the first loop yields the
    results of the first of the two passes and the second loop those of the
    second, and two reader threads have been started by then. *)
Theorem loop_twice_restarts (l : Loader) (outs1 outs2 : list Value)
  (fuel : nat) :
  num_batches l <> 1 ->
  _data l = None ->
  parse_all (selection l) (callback_fn l) (transport l (started (events l)))
    = Ok outs1 ->
  parse_all (selection l) (callback_fn l)
            (transport l (S (started (events l)))) = Ok outs2 ->
  List.length outs1 < fuel ->
  List.length outs2 < fuel ->
  exists l1 l2,
    for_loop fuel l = (Returned outs1, l1) /\
    for_loop fuel l1 = (Returned outs2, l2) /\
    started (events l2) = S (S (started (events l))).
Proof.
  intros N D P1 P2 F1 F2.
  destruct (for_loop_delivers l outs1 fuel D P1) as (l1 & L1 & _ & S1);
    [intros X; contradiction|exact F1|].
  assert (Fr : same_setup l l1).
  { pose proof (drain_frame fuel (with_iterator true (_start (_reset l)))) as H.
    unfold for_loop, __iter__ in L1.
    apply Nat.eqb_neq in N. rewrite N in L1. rewrite L1 in H. exact H. }
  destruct Fr as (E1 & _ & _ & E3 & E4 & E5 & E6). simpl in *.
  destruct (for_loop_delivers l1 outs2 fuel) as (l2 & L2 & _ & S2).
  - rewrite E6. exact D.
  - rewrite E3, E4, E5, S1. exact P2.
  - rewrite E1. intros X. contradiction.
  - exact F2.
  - exists l1, l2. repeat split; auto. rewrite S2, S1. reflexivity.
Qed.

(** loader3 after [configureKafka], shuffled: two loops, two passes. *)
Lemma loop_twice_restarts_witness :
  exists l1 l2,
    for_loop 11 (loader_of (over_kafka hetero) loader3) =
      (Returned (map (assemble (selection (loader_of (over_kafka hetero) loader3)))
                     (transport (loader_of (over_kafka hetero) loader3) 0)), l1) /\
    for_loop 11 l1 =
      (Returned (map (assemble (selection (loader_of (over_kafka hetero) loader3)))
                     (transport (loader_of (over_kafka hetero) loader3) 1)), l2) /\
    started (events l2) =
      S (S (started (events (loader_of (over_kafka hetero) loader3)))).
Proof.
  apply (loop_twice_restarts (loader_of (over_kafka hetero) loader3) _ _ 11).
  - vm_compute. discriminate.
  - reflexivity.
  - vm_compute. reflexivity.
  - vm_compute. reflexivity.
  - vm_compute. lia.
  - vm_compute. lia.
Defined.



(** * The notebooks' selecting callbacks *)

Lemma lookup_keyed {A : Type} (F : string -> A) (t : string)
  (ts : list string) :
  In t ts -> lookup t (map (fun k => (k, F k)) ts) = Some (F t).
Proof.
  induction ts as [|k ts IH]; intros I; [destruct I|]. simpl.
  destruct (String.eqb_spec k t) as [E|E]; [subst; reflexivity|].
  apply IH. destruct I as [I|I]; [contradiction|exact I].
Qed.

Lemma has_line (t : string) (raw : RawBatch) :
  existsb (fun r => fst r =? t) raw = true -> In t (types_of raw).
Proof.
  intros H. apply existsb_exists in H. destruct H as (r & I & E).
  apply String.eqb_eq in E. subst t. apply types_of_In. apply in_map. exact I.
Qed.

Lemma assembled_table (m : list (string * list string)) (t : string)
  (raw : RawBatch) :
  existsb (fun r => fst r =? t) raw = true ->
  exists d,
    assemble (ByType m) raw = VDict d /\
    lookup t d = Some (table_of m t raw).
Proof.
  intros H. eexists. split; [reflexivity|].
  apply (lookup_keyed (fun k => table_of m k raw)). apply has_line. exact H.
Qed.

(** With the vertex notebook's callback [{"v0": batch["v0"]}] on a loader
    that has not kept a batch, whose attributes are a mapping and whose raw
    batches all have a [v0] line: the loop yields one batch per raw batch, in
    order, each a dict with the single key [v0], and the table under it is
    the table the assembled batch has under [v0]. *)
Theorem v0_callback_restricts (l : Loader) (m : list (string * list string))
  (fuel : nat) :
  selection l = ByType m ->
  callback_fn l = OFun process_batch_v0 ->
  _data l = None ->
  all_have "v0" (transport l (started (events l))) = true ->
  (num_batches l = 1 -> List.length (transport l (started (events l))) = 1) ->
  List.length (transport l (started (events l))) < fuel ->
  exists l',
    for_loop fuel l =
      (Returned (map (fun raw => VDict [("v0", table_of m "v0" raw)])
                     (transport l (started (events l)))), l') /\
    Forall (fun raw => exists d,
                assemble (ByType m) raw = VDict d /\
                lookup "v0" d = Some (table_of m "v0" raw))
           (transport l (started (events l))).
Proof.
  intros S C D H One F.
  assert (A : Forall (fun raw => exists d,
                        assemble (ByType m) raw = VDict d /\
                        lookup "v0" d = Some (table_of m "v0" raw))
                     (transport l (started (events l)))).
  { apply Forall_forall. intros raw I. apply assembled_table.
    unfold all_have in H. rewrite forallb_forall in H. apply H. exact I. }
  destruct (parse_all_truthy (selection l) (callback_fn l)
              (transport l (started (events l)))
              (map (fun raw => VDict [("v0", table_of m "v0" raw)])
                   (transport l (started (events l))))) as [P _].
  { rewrite C. reflexivity. }
  { rewrite S, C. clear - A.
    induction A as [|raw src (d & E & Lk) A IH]; cbn [map]; constructor; auto.
    cbn [call]. unfold process_batch_v0. rewrite E, Lk. reflexivity. }
  destruct (for_loop_delivers l _ fuel D P One) as (l' & L & _).
  { rewrite length_map. exact F. }
  exists l'. split; [exact L|exact A].
Qed.

(** The notebook's loader4. *)
Lemma v0_callback_restricts_witness :
  exists l',
    for_loop 11 (loader_of (over_http hetero) loader4) =
      (Returned (map (fun raw =>
                        VDict [("v0", table_of [("v0", ["x"; "y"]); ("v1", ["x"])]
                                        "v0" raw)])
                     (transport (loader_of (over_http hetero) loader4)
                        (started (events (loader_of (over_http hetero) loader4))))),
       l') /\
    Forall (fun raw => exists d,
                assemble (ByType [("v0", ["x"; "y"]); ("v1", ["x"])]) raw = VDict d /\
                lookup "v0" d =
                  Some (table_of [("v0", ["x"; "y"]); ("v1", ["x"])] "v0" raw))
           (transport (loader_of (over_http hetero) loader4)
              (started (events (loader_of (over_http hetero) loader4)))).
Proof.
  apply (v0_callback_restricts (loader_of (over_http hetero) loader4)
           [("v0", ["x"; "y"]); ("v1", ["x"])] 11).
  - reflexivity.
  - reflexivity.
  - reflexivity.
  - vm_compute. reflexivity.
  - intros H. vm_compute in H. discriminate H.
  - vm_compute. lia.
Defined.

(** Whenever one of the notebooks' selecting callbacks returns, what it
    returns is a dict with its one key, and applying the callback to that
    result returns the result again. *)
Theorem selecting_callbacks_idempotent (b out : Value) :
  (process_batch_v0 b = Ok out ->
   process_batch_v0 out = Ok out /\ exists t, out = VDict [("v0", t)]) /\
  (process_batch_v0v0 b = Ok out ->
   process_batch_v0v0 out = Ok out /\ exists t, out = VDict [("v0v0", t)]).
Proof.
  split; intros H; destruct b as [| | |t|d]; simpl in H; try discriminate.
  - destruct (lookup "v0" t); inversion H. split; [reflexivity|eauto].
  - destruct (lookup "v0" d); inversion H. split; [reflexivity|eauto].
  - destruct (lookup "v0v0" t); inversion H. split; [reflexivity|eauto].
  - destruct (lookup "v0v0" d); inversion H. split; [reflexivity|eauto].
Qed.


